(** * fesql::vm::Engine and RunSession (src/vm/engine.cc)

    A shallow embedding of the compile-cache-and-dispatch engine: the two
    per-mode caches of compiled artifacts, [Engine::Get], [Engine::Explain],
    [Engine::ClearCacheLocked], [Engine::GetCacheLocked], and the three
    [Run] entry points of the request and batch sessions.

    The SQL compiler and the runner tree are collaborators of the engine;
    they are parameters of the development.  Shared ownership
    ([std::shared_ptr<CompileInfo>]) is modelled by an explicit store of
    CompileInfo objects indexed by address, so that "the same CompileInfo"
    is equality of addresses.

    The classes engine.cc works on are declared in headers (vm/engine.h,
    vm/catalog.h, vm/mem_catalog.h, vm/sql_compiler.h, base/status.h); the
    records below have the members engine.cc reads and writes, under the
    names it uses. *)

From stdpp Require Import gmap strings list fin_maps.
From Stdlib Require Import ZArith NArith.

Local Open Scope Z_scope.

(** ** Data model *)

(** [base::Status]: a numeric code (zero is success) and a message. *)
Record Status := mkStatus { code : Z; msg : string }.

(** Address of a [CompileInfo] object; a [std::shared_ptr<CompileInfo>]
    that is not null is such an address. *)
Definition ptr := positive.

(** [EngineOptions], read through [is_keep_ir], [is_compile_only] and
    [is_plan_only]. *)
Record EngineOptions := mkEngineOptions {
  is_keep_ir : bool;
  is_compile_only : bool;
  is_plan_only : bool
}.

(** The two concrete session classes; [IsBatchRun] is their only virtual
    difference seen by the engine. *)
Inductive SessionKind := BatchRunSession | RequestRunSession.

Record RunSession := mkRunSession {
  kind : SessionKind;
  compile_info_ : option ptr;
  is_debug_ : bool
}.

Definition IsBatchRun (session : RunSession) : bool :=
  match kind session with
  | BatchRunSession => true
  | RequestRunSession => false
  end.

(** [RunSession::SetCompileInfo]: rebinds the session, always succeeds. *)
Definition SetCompileInfo (session : RunSession) (compile_info : ptr)
  : RunSession :=
  {| kind := kind session;
     compile_info_ := Some compile_info;
     is_debug_ := is_debug_ session |}.

(** The discriminant returned by [GetHanlderType]. *)
Inductive HandlerType := kRowHandler | kTableHandler | kPartitionHandler.

(** What the engine asks of the compiler, recorded in call order. *)
Inductive Event :=
| EvCompile (sql db : string) (is_batch : bool)
| EvBuildRunner (sql db : string) (is_batch : bool).

(** [EngineCache]: database name, then SQL text, to a shared CompileInfo. *)
Abbreviation SqlCache := (gmap string ptr).
Abbreviation EngineCache := (gmap string (gmap string ptr)).

(** [std::map::operator[]]: the inner map at [db], default-constructed and
    stored when [db] has no entry yet. *)
Definition subscript (db : string) (cache : EngineCache)
  : SqlCache * EngineCache :=
  match cache !! db with
  | Some sql_in_db => (sql_in_db, cache)
  | None => (∅, <[db := ∅]> cache)
  end.

(** One cache's lookup, as both branches of [GetCacheLocked] do it: [find]
    on the outer map, then [find] on the inner one. *)
Definition find_entry (db sql : string) (cache : EngineCache) : option ptr :=
  match cache !! db with
  | None => None
  | Some sql_in_db => sql_in_db !! sql
  end.

Set Implicit Arguments.

Section Model.

(** The collaborators' types: encoded rows, column definitions of a
    schema, and the catalog. *)
Variables Row ColumnDef Catalog : Type.

(** *** Output handlers *)

(** Modelled from the spec: the iterator of a table handler, "a
    restartable iterator over an ordered sequence of rows" (its class is
    declared in vm/catalog.h).  It is the rows of the table it walks and
    the rows from its current position on; [SeekToFirst] restarts it,
    [Valid] tells whether a row is left, [Iter_GetValue] is the row at the
    position and [Next] moves past it. *)
Record RowIterator := mkRowIterator {
  it_table : list Row;
  it_cur : list Row
}.

Definition SeekToFirst (iter : RowIterator) : RowIterator :=
  {| it_table := it_table iter; it_cur := it_table iter |}.

Definition Valid (iter : RowIterator) : bool :=
  match it_cur iter with
  | [] => false
  | _ :: _ => true
  end.

Definition Iter_GetValue (iter : RowIterator) : option Row :=
  head (it_cur iter).

Definition Next (iter : RowIterator) : RowIterator :=
  {| it_table := it_table iter; it_cur := tail (it_cur iter) |}.

(** A table handler hands out an iterator, which may be null (lines 208
    and 266 test it). *)
Record TableHandler := mkTableHandler {
  GetIterator : option RowIterator
}.

Record RowHandler := mkRowHandler { GetValue : Row }.

Record PartitionHandler := mkPartitionHandler {
  partitions : list (string * list Row)
}.

Inductive DataHandler :=
| OfTable (t : TableHandler)
| OfRow (r : RowHandler)
| OfPartition (p : PartitionHandler).

Definition GetHanlderType (output : DataHandler) : HandlerType :=
  match output with
  | OfTable _ => kTableHandler
  | OfRow _ => kRowHandler
  | OfPartition _ => kPartitionHandler
  end.

(** Modelled from the spec: [MemTableHandler] (vm/mem_catalog.h), "a
    freshly materialized ... in-memory table": rows are kept in insertion
    order, [AddRow] appends one, and the iterator walks them from the
    first. *)
Record MemTableHandler := mkMemTableHandler { table_ : list Row }.

(** Modelled from the spec: a newly constructed [MemTableHandler] holds no
    row. *)
Definition MemTableHandler_new : MemTableHandler := {| table_ := [] |}.

(** Modelled from the spec: [MemTableHandler::AddRow] appends the row. *)
Definition AddRow (row : Row) (table : MemTableHandler) : MemTableHandler :=
  {| table_ := table_ table ++ [row] |}.

(** Modelled from the spec: a [MemTableHandler] seen as the
    [TableHandler] it derives from; its iterator walks the rows added, in
    order. *)
Definition MemTable_as_TableHandler (table : MemTableHandler)
  : TableHandler :=
  {| GetIterator :=
       Some {| it_table := table_ table; it_cur := table_ table |} |}.

(** *** Runner and compiled artifact *)

(** [RunnerContext]: the request row (request mode only) and the debug
    flag. *)
Record RunnerContext := mkRunnerContext {
  request : option Row;
  is_debug : bool
}.

(** The runner tree, through its one entry point; the output may be
    null. *)
Record Runner := mkRunner {
  RunWithCache : RunnerContext -> option DataHandler
}.

Definition Schema := list ColumnDef.

Record SQLContext := mkSQLContext {
  is_batch_mode : bool;
  sql : string;
  db : string;
  logical_plan : string;
  physical_plan : string;
  ir : string;
  request_schema : Schema;
  schema : Schema;
  runner : option Runner
}.

(** A default-constructed context with the three fields [Get] and
    [Explain] assign before compiling. *)
Definition fresh_context (sql db : string) (is_batch : bool) : SQLContext :=
  {| is_batch_mode := is_batch; sql := sql; db := db;
     logical_plan := EmptyString; physical_plan := EmptyString; ir := EmptyString;
     request_schema := []; schema := []; runner := None |}.

Record CompileInfo := mkCompileInfo { get_sql_context : SQLContext }.

(** [SQLCompiler] as constructed by the engine. *)
Record SQLCompiler := mkSQLCompiler {
  cl : Catalog;
  keep_ir : bool;
  dump_plan : bool;
  plan_only : bool
}.

(** [SQLCompiler::Compile] and [SQLCompiler::BuildRunner]: both update
    the context and the status in place and return a flag. *)
Variable Compile :
  SQLCompiler -> SQLContext -> Status -> bool * SQLContext * Status.
Variable BuildRunner :
  SQLCompiler -> SQLContext -> Status -> bool * SQLContext * Status.

(** Default of the constructor's last argument, which [Explain] omits
    (declared in vm/sql_compiler.h). *)
Variable plan_only_default : bool.

(** *** Engine state *)

Record Engine := mkEngine {
  cl_ : Catalog;
  options_ : EngineOptions;
  batch_cache_ : EngineCache;
  request_cache_ : EngineCache
}.

(** The engine, the store of live CompileInfo objects, and the calls
    made to the compiler so far. *)
Record World := mkWorld {
  engine : Engine;
  heap : gmap ptr CompileInfo;
  trace : list Event
}.

Definition Engine_new (catalog : Catalog) (options : EngineOptions)
  : Engine :=
  {| cl_ := catalog; options_ := options;
     batch_cache_ := ∅; request_cache_ := ∅ |}.

Definition World_new (catalog : Catalog) (options : EngineOptions)
  : World :=
  {| engine := Engine_new catalog options; heap := ∅; trace := [] |}.

Definition set_engine (e : Engine) (w : World) : World :=
  {| engine := e; heap := heap w; trace := trace w |}.

Definition record_event (ev : Event) (w : World) : World :=
  {| engine := engine w; heap := heap w; trace := trace w ++ [ev] |}.

Definition store (p : ptr) (info : CompileInfo) (w : World) : World :=
  {| engine := engine w; heap := <[p := info]> (heap w);
     trace := trace w |}.

Definition release (p : ptr) (w : World) : World :=
  {| engine := engine w; heap := delete p (heap w); trace := trace w |}.

(** The world with other contents in one of its caches, to state what an
    operation does not depend on. *)
Definition with_batch_cache (cache : EngineCache) (w : World) : World :=
  set_engine {| cl_ := cl_ (engine w); options_ := options_ (engine w);
                batch_cache_ := cache;
                request_cache_ := request_cache_ (engine w) |} w.

Definition with_request_cache (cache : EngineCache) (w : World) : World :=
  set_engine {| cl_ := cl_ (engine w); options_ := options_ (engine w);
                batch_cache_ := batch_cache_ (engine w);
                request_cache_ := cache |} w.

(** The cache of a mode, and the world with other contents in it. *)
Definition cache_of (is_batch : bool) (e : Engine) : EngineCache :=
  if is_batch then batch_cache_ e else request_cache_ e.

Definition with_cache (is_batch : bool) (cache : EngineCache) (w : World)
  : World :=
  if is_batch then with_batch_cache cache w else with_request_cache cache w.

(** *** Engine::GetCacheLocked *)

Definition GetCacheLocked (db sql : string) (is_batch : bool) (e : Engine)
  : option ptr :=
  if is_batch then find_entry db sql (batch_cache_ e)
  else find_entry db sql (request_cache_ e).

(** *** Engine::ClearCacheLocked *)

Definition ClearCacheLocked (db : string) (e : Engine) : Engine :=
  {| cl_ := cl_ e; options_ := options_ e;
     batch_cache_ := delete db (batch_cache_ e);
     request_cache_ := delete db (request_cache_ e) |}.

Definition ClearCache (db : string) (w : World) : World :=
  set_engine (ClearCacheLocked db (engine w)) w.

(** *** Engine::Get *)

Definition failed (ok : bool) (status : Status) : bool :=
  negb ok || negb (code status =? 0).

(** The compiler [Get] constructs (lines 79-81), on the catalog loaded
    from [cl_]. *)
Definition Get_compiler (e : Engine) : SQLCompiler :=
  {| cl := cl_ e;
     keep_ir := is_keep_ir (options_ e);
     dump_plan := false;
     plan_only := is_plan_only (options_ e) |}.

(** Lines 75-93: allocate the CompileInfo, compile, and unless the
    engine is compile-only build the runner.  On success the new object
    is live at a fresh address, held only by the local [info]; on
    failure it is destroyed when [Get] returns. *)
Definition Get_compile (sql db : string) (is_batch : bool)
    (status : Status) (w : World) : option ptr * Status * World :=
  let info := fresh (dom (heap w)) in
  let ctx := fresh_context sql db is_batch in
  let compiler := Get_compiler (engine w) in
  let '(ok, ctx, status) := Compile compiler ctx status in
  let w := record_event (EvCompile sql db is_batch) w in
  if failed ok status then (None, status, w)
  else if negb (is_compile_only (options_ (engine w))) then
    let '(ok, ctx, status) := BuildRunner compiler ctx status in
    let w := record_event (EvBuildRunner sql db is_batch) w in
    if failed ok status then (None, status, w)
    else (Some info, status, store info {| get_sql_context := ctx |} w)
  else (Some info, status, store info {| get_sql_context := ctx |} w).

(** Lines 94-122: under the lock, insert [info] unless the key is already
    present, and bind the session to the entry the cache holds.  When the
    key is present the fresh object is dropped with the local [info]. *)
Definition Get_insert (sql db : string) (session : RunSession)
    (info : ptr) (w : World) : RunSession * World :=
  let e := engine w in
  if IsBatchRun session then
    let '(sql_in_db, cache) := subscript db (batch_cache_ e) in
    match sql_in_db !! sql with
    | None =>
      (SetCompileInfo session info,
       set_engine {| cl_ := cl_ e; options_ := options_ e;
                     batch_cache_ := <[db := <[sql := info]> sql_in_db]> cache;
                     request_cache_ := request_cache_ e |} w)
    | Some it_second =>
      (SetCompileInfo session it_second,
       release info
         (set_engine {| cl_ := cl_ e; options_ := options_ e;
                        batch_cache_ := cache;
                        request_cache_ := request_cache_ e |} w))
    end
  else
    let '(sql_in_db, cache) := subscript db (request_cache_ e) in
    match sql_in_db !! sql with
    | None =>
      (SetCompileInfo session info,
       set_engine {| cl_ := cl_ e; options_ := options_ e;
                     batch_cache_ := batch_cache_ e;
                     request_cache_ :=
                       <[db := <[sql := info]> sql_in_db]> cache |} w)
    | Some it_second =>
      (SetCompileInfo session it_second,
       release info
         (set_engine {| cl_ := cl_ e; options_ := options_ e;
                        batch_cache_ := batch_cache_ e;
                        request_cache_ := cache |} w))
    end.

Definition Get (sql db : string) (session : RunSession) (status : Status)
    (w : World) : bool * RunSession * Status * World :=
  match GetCacheLocked db sql (IsBatchRun session) (engine w) with
  | Some info => (true, SetCompileInfo session info, status, w)
  | None =>
    match Get_compile sql db (IsBatchRun session) status w with
    | (None, status, w) => (false, session, status, w)
    | (Some info, status, w) =>
      let '(session, w) := Get_insert sql db session info w in
      (true, session, status, w)
    end
  end.

(** *** Engine::Explain *)

Record ExplainOutput := mkExplainOutput {
  input_schema : Schema;
  output_schema : Schema;
  eo_logical_plan : string;
  eo_physical_plan : string;
  eo_ir : string
}.

(** The two out-parameters are pointers; [None] is a null pointer. *)
Definition Explain (sql db : string) (is_batch : bool)
    (explain_output : option ExplainOutput) (status : option Status)
    (w : World) : bool * option ExplainOutput * option Status * World :=
  match explain_output, status with
  | Some _, Some st =>
    let ctx := fresh_context sql db is_batch in
    let compiler :=
      {| cl := cl_ (engine w); keep_ir := true; dump_plan := true;
         plan_only := plan_only_default |} in
    let '(ok, ctx, st) := Compile compiler ctx st in
    let w := record_event (EvCompile sql db is_batch) w in
    if failed ok st then (false, explain_output, Some st, w)
    else
      (true,
       Some {| input_schema := request_schema ctx;
               output_schema := schema ctx;
               eo_logical_plan := logical_plan ctx;
               eo_physical_plan := physical_plan ctx;
               eo_ir := ir ctx |},
       Some st, w)
  | _, _ => (false, explain_output, status, w)
  end.

(** *** Run sessions *)

(** [compile_info_->get_sql_context().runner]: undefined ([None]) when the
    session is unbound, or the artifact has no runner tree. *)
Definition session_runner (h : gmap ptr CompileInfo) (session : RunSession)
  : option Runner :=
  info ← compile_info_ session;
  compile_info ← h !! info;
  runner (get_sql_context compile_info).

(** [RequestRunSession::Run]: the return code and the caller's row
    afterwards. *)
Definition RequestRunSession_Run (h : gmap ptr CompileInfo)
    (session : RunSession) (in_row : Row) (out_row : Row)
  : option (Z * Row) :=
  r ← session_runner h session;
  let ctx := {| request := Some in_row; is_debug := is_debug_ session |} in
  Some
    match RunWithCache r ctx with
    | None => (-1, out_row)
    | Some (OfTable table) =>
      match GetIterator table with
      | None => (0, out_row)
      | Some iter =>
        let iter := SeekToFirst iter in
        if Valid iter then (0, default out_row (Iter_GetValue iter))
        else (0, out_row)
      end
    | Some (OfRow row) => (0, GetValue row)
    | Some (OfPartition _) => (-1, out_row)
    end.

(** [BatchRunSession::Run()]: the returned table handler, [None] when
    null. *)
Definition BatchRunSession_Run (h : gmap ptr CompileInfo)
    (session : RunSession) : option (option TableHandler) :=
  r ← session_runner h session;
  let ctx := {| request := None; is_debug := is_debug_ session |} in
  Some
    match RunWithCache r ctx with
    | None => None
    | Some (OfTable table) => Some table
    | Some (OfRow row) =>
      let table := MemTableHandler_new in
      let table := AddRow (GetValue row) table in
      Some (MemTable_as_TableHandler table)
    | Some (OfPartition _) => None
    end.

(** The loop of lines 270-273, by recursion on the rows from the iterator's
    position on: [Valid] holds while some are left, [GetValue] is the
    first of them and [Next] drops it. *)
Fixpoint push_back_all (cur : list Row) (rows : list Row) : list Row :=
  match cur with
  | [] => rows
  | value :: cur => push_back_all cur (rows ++ [value])
  end.

(** [BatchRunSession::Run(rows, limit)]: the return code and the caller's
    vector afterwards. *)
Definition BatchRunSession_Run_rows (h : gmap ptr CompileInfo)
    (session : RunSession) (rows : list Row) (limit : N)
  : option (Z * list Row) :=
  r ← session_runner h session;
  let ctx := {| request := None; is_debug := is_debug_ session |} in
  Some
    match RunWithCache r ctx with
    | None => (-1, rows)
    | Some (OfTable table) =>
      match GetIterator table with
      | None => (0, rows)
      | Some iter =>
        let iter := SeekToFirst iter in
        (0, push_back_all (it_cur iter) rows)
      end
    | Some (OfRow row) => (0, rows ++ [GetValue row])
    | Some (OfPartition _) => (-1, rows)
    end.

(** The rows a table handler's iterator yields when walked from the
    first. *)
Definition rows_of (table : TableHandler) : list Row :=
  match GetIterator table with
  | None => []
  | Some iter => push_back_all (it_cur (SeekToFirst iter)) []
  end.

(** *** Concurrent calls *)

(** [info] is live and no cache entry holds it: the state of the local
    [info] of a [Get] between its compilation and its insertion. *)
Definition unpublished (info : ptr) (w : World) : Prop :=
  info ∈ dom (heap w) ∧
  ∀ is_batch db sql, GetCacheLocked db sql is_batch (engine w) ≠ Some info.

(** The atomic actions of calls running on several threads.  A [Get] that
    missed contributes its compilation, which takes no lock, and later
    its insertion, which holds the lock; the other operations are one
    action each.  A lookup changes nothing and needs no action. *)
Inductive step : World -> World -> Prop :=
| step_compile sql db is_batch status w :
    step w (Get_compile sql db is_batch status w).2
| step_insert sql db session info w :
    unpublished info w ->
    step w (Get_insert sql db session info w).2
| step_explain sql db is_batch explain_output status w :
    step w (Explain sql db is_batch explain_output status w).2
| step_clear db w :
    step w (ClearCache db w).

Definition reachable (catalog : Catalog) (options : EngineOptions)
    (w : World) : Prop :=
  rtc step (World_new catalog options) w.

(** Every cache entry is a live object, and no object is held under two
    keys, be it in one cache or across the two. *)
Record cache_inv (w : World) : Prop := mk_cache_inv {
  inv_live : ∀ is_batch db sql info,
    GetCacheLocked db sql is_batch (engine w) = Some info ->
    info ∈ dom (heap w);
  inv_inj : ∀ b1 db1 sql1 b2 db2 sql2 info,
    GetCacheLocked db1 sql1 b1 (engine w) = Some info ->
    GetCacheLocked db2 sql2 b2 (engine w) = Some info ->
    (b1, db1, sql1) = (b2, db2, sql2)
}.

(** *** Constructors and process-wide initialisation *)


(** The two LLVM entry points [InitializeGlobalLLVM] calls. *)
Inductive LLVMCall :=
| LLVMInitializeNativeTarget
| LLVMInitializeNativeAsmPrinter.

(** The static flag of line 37 and the calls made to LLVM so far. *)
Record LLVMState := mkLLVMState {
  LLVM_IS_INITIALIZED : bool;
  llvm_calls : list LLVMCall
}.

Definition LLVMState_initial : LLVMState :=
  {| LLVM_IS_INITIALIZED := false; llvm_calls := [] |}.

(** [Engine::InitializeGlobalLLVM] (lines 57-62). *)
Definition InitializeGlobalLLVM (s : LLVMState) : LLVMState :=
  if LLVM_IS_INITIALIZED s then s
  else
    {| LLVM_IS_INITIALIZED := true;
       llvm_calls :=
         llvm_calls s
         ++ [LLVMInitializeNativeTarget; LLVMInitializeNativeAsmPrinter] |}.

(** The world under other engine options, to state what an operation does
    not depend on. *)
Definition with_options (options : EngineOptions) (w : World) : World :=
  set_engine {| cl_ := cl_ (engine w); options_ := options;
                batch_cache_ := batch_cache_ (engine w);
                request_cache_ := request_cache_ (engine w) |} w.

(** The compiler [Explain] constructs (lines 137-138). *)
Definition Explain_compiler (e : Engine) : SQLCompiler :=
  {| cl := cl_ e; keep_ir := true; dump_plan := true;
     plan_only := plan_only_default |}.

(** What lines 145-149 copy out of a compiled context. *)
Definition explained (ctx : SQLContext) : ExplainOutput :=
  {| input_schema := request_schema ctx;
     output_schema := schema ctx;
     eo_logical_plan := logical_plan ctx;
     eo_physical_plan := physical_plan ctx;
     eo_ir := ir ctx |}.

End Model.

(** ** A small instance

    Concrete collaborators on which the operations can be run: rows and
    column definitions are strings, the catalog carries nothing.  The
    compiler rejects the text ["bad"], and cannot build a runner for the
    text ["norunner"]. *)

Definition demo_table : TableHandler string :=
  {| GetIterator := Some {| it_table := ["r1"; "r2"; "r3"]; it_cur := [] |} |}.

Definition demo_runner : Runner string :=
  {| RunWithCache := fun ctx =>
       match request ctx with
       | Some row => Some (OfRow {| GetValue := row |})
       | None => Some (OfTable demo_table)
       end |}.

Definition demo_Compile (compiler : SQLCompiler unit)
    (ctx : SQLContext string string) (status : Status)
  : bool * SQLContext string string * Status :=
  if String.eqb (sql ctx) "bad" then
    (false, ctx, {| code := 1; msg := "syntax error" |})
  else
    (true,
     {| is_batch_mode := is_batch_mode ctx; sql := sql ctx; db := db ctx;
        logical_plan := "project"; physical_plan := "scan"; ir := EmptyString;
        request_schema := ["c1"]; schema := ["c1"];
        runner := runner ctx |},
     {| code := 0; msg := "ok" |}).

Definition demo_BuildRunner (compiler : SQLCompiler unit)
    (ctx : SQLContext string string) (status : Status)
  : bool * SQLContext string string * Status :=
  if String.eqb (sql ctx) "norunner" then
    (false, ctx, {| code := 2; msg := "no runner" |})
  else
    (true,
     {| is_batch_mode := is_batch_mode ctx; sql := sql ctx; db := db ctx;
        logical_plan := logical_plan ctx;
        physical_plan := physical_plan ctx; ir := ir ctx;
        request_schema := request_schema ctx; schema := schema ctx;
        runner := Some demo_runner |},
     status).

Definition demo_options : EngineOptions :=
  {| is_keep_ir := false; is_compile_only := false; is_plan_only := false |}.

Definition demo_world : World string string unit :=
  World_new string string tt demo_options.

Definition demo_batch : RunSession :=
  {| kind := BatchRunSession; compile_info_ := None; is_debug_ := false |}.

Definition demo_request : RunSession :=
  {| kind := RequestRunSession; compile_info_ := None; is_debug_ := false |}.

Definition demo_batch_debug : RunSession :=
  {| kind := BatchRunSession; compile_info_ := None; is_debug_ := true |}.

Definition demo_status : Status := {| code := 0; msg := EmptyString |}.

Definition demo_sql : string := "select c1 from t1".
Definition demo_db : string := "db1".

(** A first [Get] in batch mode on the new engine, and a second one in
    request mode after it. *)
Definition demo_first
  : bool * RunSession * Status * World string string unit :=
  Get demo_Compile demo_BuildRunner demo_sql demo_db demo_batch demo_status
    demo_world.

Definition demo_second
  : bool * RunSession * Status * World string string unit :=
  Get demo_Compile demo_BuildRunner demo_sql demo_db demo_request
    demo_status demo_first.2.

(** A third [Get], in batch mode for the same text in another database. *)
Definition demo_third
  : bool * RunSession * Status * World string string unit :=
  Get demo_Compile demo_BuildRunner demo_sql "db2" demo_batch demo_status
    demo_second.2.

Definition demo_explain_output : ExplainOutput string :=
  {| input_schema := []; output_schema := [];
     eo_logical_plan := EmptyString; eo_physical_plan := EmptyString;
     eo_ir := EmptyString |}.

(** Two threads miss the cache for one key and both compile, the first at
    address 1 and the second at address 2; the first has then inserted
    its artifact, the second has not yet reached its insertion. *)
Definition demo_race : World string string unit :=
  let w1 :=
    (Get_compile demo_Compile demo_BuildRunner demo_sql demo_db true
       demo_status demo_world).2 in
  let w2 :=
    (Get_compile demo_Compile demo_BuildRunner demo_sql demo_db true
       demo_status w1).2 in
  (Get_insert demo_sql demo_db demo_batch 1%positive w2).2.

(** A store with one artifact, at address 1, whose runner always returns
    [output], and a session bound to it. *)
Definition demo_const_runner (output : option (DataHandler string))
  : Runner string :=
  {| RunWithCache := fun _ => output |}.

Definition demo_store (output : option (DataHandler string))
  : gmap ptr (CompileInfo string string) :=
  {[ 1%positive :=
       {| get_sql_context :=
            {| is_batch_mode := true; sql := demo_sql; db := demo_db;
               logical_plan := "project"; physical_plan := "scan";
               ir := EmptyString; request_schema := ["c1"]; schema := ["c1"];
               runner := Some (demo_const_runner output) |} |} ]}.

Definition demo_bound (session : RunSession) : RunSession :=
  SetCompileInfo session 1%positive.

(** The compiler's two answers for the text ["norunner"] on the new
    engine: the compilation succeeds, the construction of the runner
    fails. *)
Definition demo_compiled
  : bool * SQLContext string string * Status :=
  demo_Compile (Get_compiler (engine demo_world))
    (fresh_context string string "norunner" demo_db true) demo_status.

Definition demo_built
  : bool * SQLContext string string * Status :=
  demo_BuildRunner (Get_compiler (engine demo_world))
    demo_compiled.1.2 demo_compiled.2.

(** The compiler's two answers for [demo_sql] in batch mode on the new
    engine. *)
Definition demo_sql_compiled
  : bool * SQLContext string string * Status :=
  demo_Compile (Get_compiler (engine demo_world))
    (fresh_context string string demo_sql demo_db true) demo_status.

Definition demo_sql_built
  : bool * SQLContext string string * Status :=
  demo_BuildRunner (Get_compiler (engine demo_world))
    demo_sql_compiled.1.2 demo_sql_compiled.2.

(** The compilation [Explain] runs for [demo_sql] on the new engine. *)
Definition demo_sql_explained
  : bool * SQLContext string string * Status :=
  demo_Compile (Explain_compiler false (engine demo_world))
    (fresh_context string string demo_sql demo_db true) demo_status.

(** A compile-only engine. *)
Definition demo_compile_only : World string string unit :=
  World_new string string tt
    {| is_keep_ir := false; is_compile_only := true;
       is_plan_only := false |}.

(** A [Get] for the key of [demo_first] after its database has been
    cleared. *)
Definition demo_after_clear
  : bool * RunSession * Status * World string string unit :=
  Get demo_Compile demo_BuildRunner demo_sql demo_db demo_batch_debug
    demo_status (ClearCache demo_db demo_first.2).

(** Two threads have missed the cache for one key and both compiled, at
    addresses 1 and 2; neither has inserted yet. *)
Definition demo_both_compiled : World string string unit :=
  (Get_compile demo_Compile demo_BuildRunner demo_sql demo_db true
     demo_status
     (Get_compile demo_Compile demo_BuildRunner demo_sql demo_db true
        demo_status demo_world).2).2.

Definition demo_partition : PartitionHandler string :=
  {| partitions := [("k1", ["r1"; "r2"]); ("k2", ["r3"])] |}.

(** ** Properties *)

(** *** The nested cache maps *)

Lemma subscript_lookup db sql cache :
  (subscript db cache).1 !! sql = find_entry db sql cache.
Proof.
  unfold subscript, find_entry.
  destruct (cache !! db); simpl; [done | apply lookup_empty].
Qed.

Lemma subscript_present db sql cache info :
  find_entry db sql cache = Some info -> (subscript db cache).2 = cache.
Proof.
  unfold subscript, find_entry. by destruct (cache !! db).
Qed.

Lemma subscript_outer db cache :
  (subscript db cache).2 !! db = Some (subscript db cache).1.
Proof.
  unfold subscript. destruct (cache !! db) eqn:E; simpl; [done |].
  apply lookup_insert_eq.
Qed.

Lemma find_entry_subscript db db' sql cache :
  find_entry db' sql (subscript db cache).2 = find_entry db' sql cache.
Proof.
  unfold subscript, find_entry.
  destruct (cache !! db) eqn:E; simpl; [done |].
  destruct (decide (db = db')) as [<- | Hne].
  - by rewrite lookup_insert_eq, E, lookup_empty.
  - by rewrite lookup_insert_ne.
Qed.

(** The lookup after the insertion of line 104 (and 116). *)
Lemma find_entry_insert db sql info db' sql' cache :
  find_entry db' sql'
    (<[db := <[sql := info]> (subscript db cache).1]> (subscript db cache).2)
  = if decide (db' = db ∧ sql' = sql) then Some info
    else find_entry db' sql' cache.
Proof.
  case_decide as Hk.
  - destruct Hk as [-> ->]. unfold find_entry.
    by rewrite !lookup_insert_eq.
  - destruct (decide (db' = db)) as [-> | Hdb].
    + assert (sql' ≠ sql) by naive_solver.
      unfold find_entry at 1. rewrite lookup_insert_eq, lookup_insert_ne by done.
      apply subscript_lookup.
    + unfold find_entry at 1. rewrite lookup_insert_ne by done.
      apply (find_entry_subscript db db' sql' cache).
Qed.

Lemma find_entry_delete db db' sql cache :
  find_entry db' sql (delete db cache)
  = if decide (db' = db) then None else find_entry db' sql cache.
Proof.
  unfold find_entry. case_decide as Hk.
  - subst. by rewrite lookup_delete_eq.
  - by rewrite lookup_delete_ne.
Qed.

Lemma find_entry_empty db sql : find_entry db sql ∅ = None.
Proof. unfold find_entry. by rewrite lookup_empty. Qed.

Section Proofs.

Variables Row ColumnDef Catalog : Type.
Variables Compile BuildRunner :
  SQLCompiler Catalog -> SQLContext Row ColumnDef -> Status ->
  bool * SQLContext Row ColumnDef * Status.
Variable plan_only_default : bool.

Local Abbreviation Get := (Get Compile BuildRunner).
Local Abbreviation Get_compile := (Get_compile Compile BuildRunner).
Local Abbreviation Explain := (Explain Compile plan_only_default).
Local Abbreviation step := (step Compile BuildRunner plan_only_default).
Local Abbreviation reachable :=
  (reachable Compile BuildRunner plan_only_default).

Implicit Types (w : World Row ColumnDef Catalog) (e : Engine Catalog).
Implicit Types (session : RunSession) (status : Status) (info : ptr).
Implicit Types (sql db : string) (is_batch : bool).
Implicit Types (catalog : Catalog) (options : EngineOptions).

(** *** The compilation phase of Get *)

Lemma Get_compile_engine sql db is_batch status w :
  engine (Get_compile sql db is_batch status w).2 = engine w.
Proof.
  unfold Get_compile.
  destruct (Compile _ _ _) as [[ok ctx] st]; simpl.
  destruct (failed ok st); [done |].
  destruct (is_compile_only _); simpl; [done |].
  destruct (BuildRunner _ _ _) as [[ok' ctx'] st']; simpl.
  by destruct (failed ok' st').
Qed.

Lemma Get_compile_trace sql db is_batch status w :
  ∃ rest, trace (Get_compile sql db is_batch status w).2
          = trace w ++ EvCompile sql db is_batch :: rest.
Proof.
  unfold Get_compile.
  destruct (Compile _ _ _) as [[ok ctx] st]; simpl.
  destruct (failed ok st); simpl; [by eexists |].
  destruct (is_compile_only _); simpl; [by eexists |].
  destruct (BuildRunner _ _ _) as [[ok' ctx'] st']; simpl.
  destruct (failed ok' st'); simpl; rewrite <- app_assoc; by eexists.
Qed.

Lemma Get_compile_Some sql db is_batch status w info status' w' :
  Get_compile sql db is_batch status w = (Some info, status', w') ->
  info = fresh (dom (heap w)) ∧
  ∃ compile_info, heap w' = <[info := compile_info]> (heap w).
Proof.
  unfold Get_compile.
  destruct (Compile _ _ _) as [[ok ctx] st]; simpl.
  destruct (failed ok st); [done |].
  destruct (is_compile_only _); simpl.
  { intros [= <- <- <-]. split; [done |]. by eexists. }
  destruct (BuildRunner _ _ _) as [[ok' ctx'] st']; simpl.
  destruct (failed ok' st'); [done |].
  intros [= <- <- <-]. split; [done |]. by eexists.
Qed.

Lemma Get_compile_None sql db is_batch status w status' w' :
  Get_compile sql db is_batch status w = (None, status', w') ->
  heap w' = heap w.
Proof.
  unfold Get_compile.
  destruct (Compile _ _ _) as [[ok ctx] st]; simpl.
  destruct (failed ok st); [by intros [= <- <-] |].
  destruct (is_compile_only _); simpl; [done |].
  destruct (BuildRunner _ _ _) as [[ok' ctx'] st']; simpl.
  destruct (failed ok' st'); [by intros [= <- <-] | done].
Qed.

Lemma fresh_not_live w : fresh (dom (heap w)) ∉ dom (heap w).
Proof. apply is_fresh. Qed.

(** *** The insertion phase of Get *)

Lemma set_engine_same w :
  set_engine {| cl_ := cl_ (engine w); options_ := options_ (engine w);
                batch_cache_ := batch_cache_ (engine w);
                request_cache_ := request_cache_ (engine w) |} w = w.
Proof. by destruct w as [[] ? ?]. Qed.

(** The key is present: the session is bound to the entry found, the fresh
    object is released and the engine is left as it was. *)
Lemma Get_insert_present sql db session info w existing :
  GetCacheLocked db sql (IsBatchRun session) (engine w) = Some existing ->
  Get_insert sql db session info w
  = (SetCompileInfo session existing, release info w).
Proof.
  unfold GetCacheLocked, Get_insert. intros Hfind.
  destruct (IsBatchRun session).
  - pose proof (subscript_lookup db sql (batch_cache_ (engine w))) as Hl.
    pose proof (subscript_present _ _ _ Hfind) as Hc.
    destruct (subscript db (batch_cache_ (engine w))) as [sql_in_db cache].
    simpl in *. subst cache. rewrite Hl, Hfind.
    by rewrite set_engine_same.
  - pose proof (subscript_lookup db sql (request_cache_ (engine w))) as Hl.
    pose proof (subscript_present _ _ _ Hfind) as Hc.
    destruct (subscript db (request_cache_ (engine w))) as [sql_in_db cache].
    simpl in *. subst cache. rewrite Hl, Hfind.
    by rewrite set_engine_same.
Qed.

(** The key is absent: the session is bound to the fresh object, which is
    now the entry at the key of the cache of the session's mode; no other
    lookup changes. *)
Lemma Get_insert_absent sql db session info w :
  GetCacheLocked db sql (IsBatchRun session) (engine w) = None ->
  (Get_insert sql db session info w).1 = SetCompileInfo session info ∧
  heap (Get_insert sql db session info w).2 = heap w ∧
  trace (Get_insert sql db session info w).2 = trace w ∧
  ∀ is_batch db' sql',
    GetCacheLocked db' sql' is_batch
      (engine (Get_insert sql db session info w).2)
    = if decide (is_batch = IsBatchRun session ∧ db' = db ∧ sql' = sql)
      then Some info
      else GetCacheLocked db' sql' is_batch (engine w).
Proof.
  unfold GetCacheLocked, Get_insert. intros Hfind.
  destruct (IsBatchRun session).
  - pose proof (subscript_lookup db sql (batch_cache_ (engine w))) as Hl.
    pose proof (find_entry_insert db sql info) as Hi.
    specialize (fun d s => Hi d s (batch_cache_ (engine w))).
    destruct (subscript db (batch_cache_ (engine w))) as [sql_in_db cache].
    simpl in *. rewrite Hl, Hfind. simpl. repeat split.
    intros [] db' sql'; simpl.
    + rewrite Hi.
      destruct (decide (db' = db ∧ sql' = sql)), (decide (_ ∧ _));
        first [done | exfalso; tauto].
    + done.
  - pose proof (subscript_lookup db sql (request_cache_ (engine w))) as Hl.
    pose proof (find_entry_insert db sql info) as Hi.
    specialize (fun d s => Hi d s (request_cache_ (engine w))).
    destruct (subscript db (request_cache_ (engine w))) as [sql_in_db cache].
    simpl in *. rewrite Hl, Hfind. simpl. repeat split.
    intros [] db' sql'; simpl.
    + done.
    + rewrite Hi.
      destruct (decide (db' = db ∧ sql' = sql)), (decide (_ ∧ _));
        first [done | exfalso; tauto].
Qed.

(** The insertion writes only the cache of the session's mode. *)
Lemma Get_insert_other_cache sql db session info w :
  let w' := (Get_insert sql db session info w).2 in
  (IsBatchRun session = true ->
   request_cache_ (engine w') = request_cache_ (engine w)) ∧
  (IsBatchRun session = false ->
   batch_cache_ (engine w') = batch_cache_ (engine w)).
Proof.
  unfold Get_insert. destruct (IsBatchRun session); simpl.
  - destruct (subscript db _) as [sql_in_db cache].
    by destruct (sql_in_db !! sql).
  - destruct (subscript db _) as [sql_in_db cache].
    by destruct (sql_in_db !! sql).
Qed.

(** *** Explain and ClearCache on the caches *)

Lemma Explain_frame sql db is_batch explain_output status_ptr w :
  engine (Explain sql db is_batch explain_output status_ptr w).2 = engine w ∧
  heap (Explain sql db is_batch explain_output status_ptr w).2 = heap w.
Proof.
  unfold Explain.
  destruct explain_output as [out |], status_ptr as [st |]; simpl; try done.
  destruct (Compile _ _ _) as [[ok ctx] st']; simpl.
  by destruct (failed ok st').
Qed.

Lemma GetCacheLocked_clear db db' sql is_batch e :
  GetCacheLocked db' sql is_batch (ClearCacheLocked db e)
  = if decide (db' = db) then None else GetCacheLocked db' sql is_batch e.
Proof.
  unfold GetCacheLocked, ClearCacheLocked.
  destruct is_batch; simpl; apply find_entry_delete.
Qed.

(** *** The invariant of the caches *)

Lemma cache_inv_new catalog options :
  cache_inv (World_new Row ColumnDef catalog options).
Proof.
  split; intros *; unfold GetCacheLocked; simpl.
  - destruct is_batch; by rewrite find_entry_empty.
  - destruct b1; by rewrite find_entry_empty.
Qed.

(** An invariant depends on the world through its lookups and its live
    addresses only. *)
Lemma cache_inv_same_lookups w w' :
  (∀ is_batch db sql,
     GetCacheLocked db sql is_batch (engine w')
     = GetCacheLocked db sql is_batch (engine w)) ->
  dom (heap w) ⊆ dom (heap w') ->
  cache_inv w -> cache_inv w'.
Proof.
  intros Hl Hd [Hlive Hinj]. split.
  - intros ???? H. rewrite Hl in H. apply Hd. eauto.
  - intros *. rewrite !Hl. apply Hinj.
Qed.

Lemma Get_compile_cache_inv sql db is_batch status w :
  cache_inv w -> cache_inv (Get_compile sql db is_batch status w).2.
Proof.
  apply cache_inv_same_lookups.
  - intros. by rewrite Get_compile_engine.
  - destruct (Get_compile sql db is_batch status w) as [[[info |] st] w']
      eqn:E; simpl.
    + apply Get_compile_Some in E as (_ & compile_info & ->).
      rewrite dom_insert_L. set_solver.
    + by rewrite (Get_compile_None _ _ _ _ _ E).
Qed.

Lemma Get_insert_cache_inv sql db session info w :
  unpublished info w -> cache_inv w ->
  cache_inv (Get_insert sql db session info w).2.
Proof.
  intros [Hlive Hfree] [Hl Hi].
  destruct (GetCacheLocked db sql (IsBatchRun session) (engine w))
    as [existing |] eqn:E.
  - rewrite (Get_insert_present _ _ _ info _ E). simpl. split; simpl.
    + intros b d q p Hp. rewrite dom_delete_L.
      apply elem_of_difference. split; [eauto |].
      rewrite elem_of_singleton. intros ->. by apply (Hfree b d q).
    + apply Hi.
  - destruct (Get_insert_absent _ _ _ info _ E) as (_ & Hh & _ & Hk).
    split.
    + intros b d q p. rewrite Hk, Hh. case_decide; [| by eauto].
      by intros [= <-].
    + intros b1 d1 q1 b2 d2 q2 p. rewrite !Hk.
      destruct (decide (b1 = _ ∧ _)) as [(-> & -> & ->) |],
               (decide (b2 = _ ∧ _)) as [(-> & -> & ->) |].
      * done.
      * intros [= <-] Hp. by destruct (Hfree _ _ _ Hp).
      * intros Hp [= <-]. by destruct (Hfree _ _ _ Hp).
      * apply Hi.
Qed.

Lemma step_cache_inv w w' : cache_inv w -> step w w' -> cache_inv w'.
Proof.
  intros Hinv Hstep.
  destruct Hstep as [q d b st w | q d s info w Hu | q d b out st w | d w].
  - by apply Get_compile_cache_inv.
  - by apply Get_insert_cache_inv.
  - destruct (Explain_frame q d b out st w) as [He Hh].
    eapply cache_inv_same_lookups; [| | exact Hinv].
    + intros. by rewrite He.
    + by rewrite Hh.
  - destruct Hinv as [Hl Hi]. split; simpl.
    + intros b d' q p. rewrite GetCacheLocked_clear.
      case_decide; [done | eauto].
    + intros b1 d1 q1 b2 d2 q2 p. rewrite !GetCacheLocked_clear.
      repeat case_decide; try done. apply Hi.
Qed.

(** Whatever calls have run, and however their phases interleaved, the
    caches satisfy the invariant. *)
Lemma reachable_cache_inv catalog options w :
  reachable catalog options w -> cache_inv w.
Proof.
  unfold reachable. intros Hr.
  eapply (rtc_ind_r (λ w, cache_inv w)); [| | exact Hr].
  - apply cache_inv_new.
  - intros ? ? _ Hs IH. by eapply step_cache_inv.
Qed.

(** After a successful compilation the local [info] is unpublished. *)
Lemma Get_compile_unpublished sql db is_batch status w info status' w' :
  cache_inv w ->
  Get_compile sql db is_batch status w = (Some info, status', w') ->
  unpublished info w'.
Proof.
  intros [Hl _] E.
  pose proof (Get_compile_engine sql db is_batch status w) as He.
  rewrite E in He. simpl in He.
  apply Get_compile_Some in E as (-> & compile_info & Hh). split.
  - rewrite Hh, dom_insert_L. set_solver.
  - intros b d q Hp. rewrite He in Hp.
    apply Hl in Hp. by apply fresh_not_live in Hp.
Qed.

(** A whole [Get] is a lookup, then at most the two actions. *)
Lemma Get_steps sql db session status w :
  cache_inv w -> rtc step w (Get sql db session status w).2.
Proof.
  intros Hinv. unfold Get.
  destruct (GetCacheLocked _ _ _ _); [apply rtc_refl |].
  destruct (Get_compile sql db (IsBatchRun session) status w)
    as [[[info |] st] w'] eqn:E.
  - destruct (Get_insert sql db session info w') as [session' w''] eqn:E'.
    simpl. eapply rtc_l.
    { apply (step_compile _ _ _ sql db (IsBatchRun session) status). }
    rewrite E. simpl. apply rtc_once.
    replace w'' with (Get_insert sql db session info w').2 by by rewrite E'.
    apply step_insert. by eapply Get_compile_unpublished.
  - simpl. apply rtc_once.
    replace w' with (Get_compile sql db (IsBatchRun session) status w).2
      by by rewrite E.
    apply step_compile.
Qed.

Lemma Get_reachable catalog options sql db session status w :
  reachable catalog options w ->
  reachable catalog options (Get sql db session status w).2.
Proof.
  intros Hr. unfold reachable. etrans; [exact Hr |].
  apply Get_steps. by eapply reachable_cache_inv.
Qed.

(** *** Get: hits, successes and failures *)

Lemma Get_hit sql db session status w info :
  GetCacheLocked db sql (IsBatchRun session) (engine w) = Some info ->
  Get sql db session status w
  = (true, SetCompileInfo session info, status, w).
Proof. unfold Get. by intros ->. Qed.

(** A [Get] that misses runs the compiler: its first request to it is the
    compilation of the text, whatever comes of it. *)
Lemma Get_miss_compiles sql db session status w :
  GetCacheLocked db sql (IsBatchRun session) (engine w) = None ->
  ∃ rest, trace (Get sql db session status w).2
          = trace w ++ EvCompile sql db (IsBatchRun session) :: rest.
Proof.
  unfold Get. intros Hfind. rewrite Hfind.
  destruct (Get_compile_trace sql db (IsBatchRun session) status w)
    as [rest Ht].
  destruct (Get_compile sql db (IsBatchRun session) status w)
    as [[[info |] st] w'] eqn:E; simpl in *; [| by eexists].
  assert (GetCacheLocked db sql (IsBatchRun session) (engine w') = None)
    as Hmiss.
  { pose proof (Get_compile_engine sql db (IsBatchRun session) status w)
      as He. rewrite E in He. simpl in He. by rewrite He. }
  destruct (Get_insert_absent _ _ _ info _ Hmiss) as (_ & _ & Htr & _).
  destruct (Get_insert sql db session info w') as [session' w''].
  simpl in *. rewrite Htr, Ht. by eexists.
Qed.

(** After a successful [Get] the session is bound to the entry the cache
    of its mode holds at the key. *)
Lemma Get_success_cached sql db session status w session' status' w' :
  Get sql db session status w = (true, session', status', w') ->
  ∃ info, compile_info_ session' = Some info ∧
          GetCacheLocked db sql (IsBatchRun session) (engine w') = Some info.
Proof.
  unfold Get.
  destruct (GetCacheLocked db sql (IsBatchRun session) (engine w))
    as [info |] eqn:Hfind.
  { intros [= <- <- <-]. by exists info. }
  destruct (Get_compile sql db (IsBatchRun session) status w)
    as [[[info |] st] w1] eqn:E; [| done].
  assert (GetCacheLocked db sql (IsBatchRun session) (engine w1) = None)
    as Hmiss.
  { pose proof (Get_compile_engine sql db (IsBatchRun session) status w)
      as He. rewrite E in He. simpl in He. by rewrite He. }
  destruct (Get_insert_absent _ _ _ info _ Hmiss) as (Hs & _ & _ & Hk).
  destruct (Get_insert sql db session info w1) as [s2 w2].
  simpl in *. intros [= <- <- <-]. exists info. split; [by subst s2 |].
  rewrite Hk. by rewrite decide_True.
Qed.

(** No [Get] removes or replaces an entry: what a lookup found before the
    call it finds after it. *)
Lemma Get_preserves_entries sql db session status w is_batch db' sql' info :
  GetCacheLocked db' sql' is_batch (engine w) = Some info ->
  GetCacheLocked db' sql' is_batch (engine (Get sql db session status w).2)
  = Some info.
Proof.
  intros Hfound. unfold Get.
  destruct (GetCacheLocked db sql (IsBatchRun session) (engine w))
    as [hit |] eqn:Hfind; [done |].
  pose proof (Get_compile_engine sql db (IsBatchRun session) status w) as He.
  destruct (Get_compile sql db (IsBatchRun session) status w)
    as [[[fresh_info |] st] w1]; simpl in *; [| by rewrite He].
  rewrite <- He in Hfind, Hfound.
  destruct (Get_insert_absent _ _ _ fresh_info _ Hfind) as (_ & _ & _ & Hk).
  destruct (Get_insert sql db session fresh_info w1) as [s2 w2].
  simpl in *. rewrite Hk.
  destruct (decide (_ ∧ _)) as [(-> & -> & ->) |]; [congruence | done].
Qed.

(** C1.  Two consecutive successful calls of [Get] for one mode, database
    and text: once the first has succeeded, the second finds the entry in
    the cache of the mode, returns at once with the session bound to the
    CompileInfo at the very address the first session was bound to, and
    leaves the world as it was, so that it asks nothing of the compiler
    and keeps the caller's status. *)
Theorem Get_twice_same_CompileInfo sql db session1 session2 status1 status2
    w session1' status1' w1 :
  IsBatchRun session2 = IsBatchRun session1 ->
  Get sql db session1 status1 w = (true, session1', status1', w1) ->
  ∃ info,
    compile_info_ session1' = Some info ∧
    GetCacheLocked db sql (IsBatchRun session2) (engine w1) = Some info ∧
    Get sql db session2 status2 w1
    = (true, SetCompileInfo session2 info, status2, w1) ∧
    trace (Get sql db session2 status2 w1).2 = trace w1.
Proof.
  intros Hmode Hget.
  apply Get_success_cached in Hget as (info & Hbound & Hfind).
  rewrite <- Hmode in Hfind.
  exists info. rewrite (Get_hit _ _ _ status2 _ Hfind). done.
Qed.

(** C3.  The insertion step of [Get] on a world whose cache of the
    session's mode already holds an entry at the key: the session is bound
    to that entry, the engine with both its caches is exactly as before,
    and the fresh CompileInfo is released from the store, which is
    otherwise untouched.  The entry is another object than the fresh one
    whenever the latter is the unpublished result of a compilation. *)
Theorem Get_insert_never_overwrites sql db session info existing w :
  GetCacheLocked db sql (IsBatchRun session) (engine w) = Some existing ->
  compile_info_ (Get_insert sql db session info w).1 = Some existing ∧
  engine (Get_insert sql db session info w).2 = engine w ∧
  GetCacheLocked db sql (IsBatchRun session)
    (engine (Get_insert sql db session info w).2) = Some existing ∧
  heap (Get_insert sql db session info w).2 = delete info (heap w) ∧
  heap (Get_insert sql db session info w).2 !! info = None ∧
  trace (Get_insert sql db session info w).2 = trace w ∧
  (unpublished info w -> existing ≠ info).
Proof.
  intros Hfind. rewrite (Get_insert_present _ _ _ info _ Hfind). simpl.
  repeat split; try done.
  - apply lookup_delete_eq.
  - intros [_ Hfree] ->. by apply (Hfree _ _ _ Hfind).
Qed.

(** *** What Get and Explain do not depend on *)

Lemma Get_compile_with_batch_cache cache sql db is_batch status w :
  Get_compile sql db is_batch status (with_batch_cache cache w)
  = ((Get_compile sql db is_batch status w).1,
     with_batch_cache cache (Get_compile sql db is_batch status w).2).
Proof.
  unfold Get_compile. simpl.
  change (Get_compiler (engine (with_batch_cache cache w)))
    with (Get_compiler (engine w)).
  destruct (Compile _ _ _) as [[ok ctx] st]; simpl.
  destruct (failed ok st); [done |].
  destruct (is_compile_only _); simpl; [done |].
  destruct (BuildRunner _ _ _) as [[ok' ctx'] st']; simpl.
  by destruct (failed ok' st').
Qed.

Lemma Get_compile_with_request_cache cache sql db is_batch status w :
  Get_compile sql db is_batch status (with_request_cache cache w)
  = ((Get_compile sql db is_batch status w).1,
     with_request_cache cache (Get_compile sql db is_batch status w).2).
Proof.
  unfold Get_compile. simpl.
  change (Get_compiler (engine (with_request_cache cache w)))
    with (Get_compiler (engine w)).
  destruct (Compile _ _ _) as [[ok ctx] st]; simpl.
  destruct (failed ok st); [done |].
  destruct (is_compile_only _); simpl; [done |].
  destruct (BuildRunner _ _ _) as [[ok' ctx'] st']; simpl.
  by destruct (failed ok' st').
Qed.

Lemma Get_insert_with_request_cache cache sql db session info w :
  IsBatchRun session = true ->
  Get_insert sql db session info (with_request_cache cache w)
  = ((Get_insert sql db session info w).1,
     with_request_cache cache (Get_insert sql db session info w).2).
Proof.
  unfold Get_insert. intros ->. simpl.
  destruct (subscript db _) as [sql_in_db cache'].
  by destruct (sql_in_db !! sql).
Qed.

Lemma Get_insert_with_batch_cache cache sql db session info w :
  IsBatchRun session = false ->
  Get_insert sql db session info (with_batch_cache cache w)
  = ((Get_insert sql db session info w).1,
     with_batch_cache cache (Get_insert sql db session info w).2).
Proof.
  unfold Get_insert. intros ->. simpl.
  destruct (subscript db _) as [sql_in_db cache'].
  by destruct (sql_in_db !! sql).
Qed.

(** A batch [Get] commutes with any change of the request cache: it
    neither reads nor writes it. *)
Lemma Get_batch_with_request_cache cache sql db session status w :
  IsBatchRun session = true ->
  Get sql db session status (with_request_cache cache w)
  = ((Get sql db session status w).1,
     with_request_cache cache (Get sql db session status w).2).
Proof.
  intros Hb. unfold Get. rewrite Hb. simpl.
  destruct (find_entry db sql (batch_cache_ (engine w))); [done |].
  rewrite Get_compile_with_request_cache.
  destruct (Get_compile sql db true status w) as [[[info |] st] w1];
    simpl; [| done].
  rewrite Get_insert_with_request_cache by done.
  by destruct (Get_insert sql db session info w1).
Qed.

(** A request [Get] commutes with any change of the batch cache. *)
Lemma Get_request_with_batch_cache cache sql db session status w :
  IsBatchRun session = false ->
  Get sql db session status (with_batch_cache cache w)
  = ((Get sql db session status w).1,
     with_batch_cache cache (Get sql db session status w).2).
Proof.
  intros Hb. unfold Get. rewrite Hb. simpl.
  destruct (find_entry db sql (request_cache_ (engine w))); [done |].
  rewrite Get_compile_with_batch_cache.
  destruct (Get_compile sql db false status w) as [[[info |] st] w1];
    simpl; [| done].
  rewrite Get_insert_with_batch_cache by done.
  by destruct (Get_insert sql db session info w1).
Qed.

Lemma Explain_with_caches batch request sql db is_batch explain_output
    status_ptr w :
  (Explain sql db is_batch explain_output status_ptr
     (with_batch_cache batch (with_request_cache request w))).1
  = (Explain sql db is_batch explain_output status_ptr w).1.
Proof.
  unfold Explain.
  destruct explain_output as [out |], status_ptr as [st |]; simpl; try done.
  destruct (Compile _ _ _) as [[ok ctx] st']; simpl.
  by destruct (failed ok st').
Qed.

Lemma Explain_trace sql db is_batch out st w :
  trace (Explain sql db is_batch (Some out) (Some st) w).2
  = trace w ++ [EvCompile sql db is_batch].
Proof.
  unfold Explain.
  destruct (Compile _ _ _) as [[ok ctx] st']; simpl.
  by destruct (failed ok st').
Qed.

(** C4.  [Explain] and the caches.  Whatever its arguments and whatever
    the caches hold, [Explain] leaves the engine, hence both caches, and
    the store of compiled artifacts as they were, and what it returns is
    the same under any other contents of the two caches: it writes
    neither cache and reads neither.  Called with its two output pointers
    set, it asks the compiler for exactly one compilation of the text,
    also when the key is cached.  After it every lookup gives what it gave
    before, so a [Get] for a key that was missing still misses and
    compiles. *)
Theorem Explain_never_touches_cache sql db is_batch explain_output
    status_ptr w :
  engine (Explain sql db is_batch explain_output status_ptr w).2 = engine w ∧
  batch_cache_ (engine (Explain sql db is_batch explain_output status_ptr w).2)
  = batch_cache_ (engine w) ∧
  request_cache_
    (engine (Explain sql db is_batch explain_output status_ptr w).2)
  = request_cache_ (engine w) ∧
  heap (Explain sql db is_batch explain_output status_ptr w).2 = heap w ∧
  (∀ batch request,
     (Explain sql db is_batch explain_output status_ptr
        (with_batch_cache batch (with_request_cache request w))).1
     = (Explain sql db is_batch explain_output status_ptr w).1) ∧
  (∀ out st,
     explain_output = Some out -> status_ptr = Some st ->
     trace (Explain sql db is_batch explain_output status_ptr w).2
     = trace w ++ [EvCompile sql db is_batch]) ∧
  (∀ session status,
     GetCacheLocked db sql (IsBatchRun session) (engine w) = None ->
     GetCacheLocked db sql (IsBatchRun session)
       (engine (Explain sql db is_batch explain_output status_ptr w).2)
     = None ∧
     ∃ rest,
       trace (Get sql db session status
                (Explain sql db is_batch explain_output status_ptr w).2).2
       = trace (Explain sql db is_batch explain_output status_ptr w).2
         ++ EvCompile sql db (IsBatchRun session) :: rest).
Proof.
  destruct (Explain_frame sql db is_batch explain_output status_ptr w)
    as [He Hh].
  repeat split; try done.
  - by rewrite He.
  - by rewrite He.
  - intros. apply Explain_with_caches.
  - intros out st -> ->. apply Explain_trace.
  - by rewrite He.
  - apply Get_miss_compiles. by rewrite He.
Qed.

(** C5.  A [Get] that misses the cache and whose compilation fails, or
    whose compilation succeeds and whose construction of the runner
    fails: it returns false, the session is left unbound as it was, the
    status the caller reads is the one the failing compiler call wrote,
    and the engine with both caches and the store are as before.  The next
    [Get] for the same key misses again and asks the compiler anew. *)
Theorem Get_failure_caches_nothing sql db session status w
    ok ctx st ok' ctx' st' :
  GetCacheLocked db sql (IsBatchRun session) (engine w) = None ->
  Compile (Get_compiler (engine w))
    (fresh_context Row ColumnDef sql db (IsBatchRun session)) status
  = (ok, ctx, st) ->
  BuildRunner (Get_compiler (engine w)) ctx st = (ok', ctx', st') ->
  failed ok st = true ∨
  (is_compile_only (options_ (engine w)) = false ∧ failed ok' st' = true) ->
  (Get sql db session status w).1
  = (false, session, if failed ok st then st else st') ∧
  engine (Get sql db session status w).2 = engine w ∧
  batch_cache_ (engine (Get sql db session status w).2)
  = batch_cache_ (engine w) ∧
  request_cache_ (engine (Get sql db session status w).2)
  = request_cache_ (engine w) ∧
  heap (Get sql db session status w).2 = heap w ∧
  ∀ session2 status2,
    IsBatchRun session2 = IsBatchRun session ->
    GetCacheLocked db sql (IsBatchRun session2)
      (engine (Get sql db session status w).2) = None ∧
    ∃ rest,
      trace (Get sql db session2 status2 (Get sql db session status w).2).2
      = trace (Get sql db session status w).2
        ++ EvCompile sql db (IsBatchRun session2) :: rest.
Proof.
  intros Hmiss Hc Hb Hfail.
  assert ((Get sql db session status w).1
          = (false, session, if failed ok st then st else st') ∧
          engine (Get sql db session status w).2 = engine w ∧
          heap (Get sql db session status w).2 = heap w) as (H1 & H2 & H3).
  { unfold Get, Get_compile. rewrite Hmiss, Hc. simpl.
    destruct (failed ok st) eqn:Hf; [done |].
    destruct Hfail as [| [Hco Hf']]; [done |].
    rewrite Hco, Hb. simpl. by rewrite Hf'. }
  repeat split; try done.
  - by rewrite H2.
  - by rewrite H2.
  - by rewrite H2, H.
  - apply Get_miss_compiles. by rewrite H2, H.
Qed.

(** C8.  [ClearCache db] removes the database from both caches, so that
    no text of [db] has an entry in either mode; every other database
    keeps its inner map in both caches, and the store is untouched.
    Afterwards a [Get] for a text of [db] asks the compiler to compile
    it, while a [Get] for a text of another database that had an entry
    returns at once bound to that same entry. *)
Theorem ClearCache_scoped db w :
  batch_cache_ (engine (ClearCache db w)) !! db = None ∧
  request_cache_ (engine (ClearCache db w)) !! db = None ∧
  (∀ sql is_batch,
     GetCacheLocked db sql is_batch (engine (ClearCache db w)) = None) ∧
  (∀ other, other ≠ db ->
     batch_cache_ (engine (ClearCache db w)) !! other
     = batch_cache_ (engine w) !! other ∧
     request_cache_ (engine (ClearCache db w)) !! other
     = request_cache_ (engine w) !! other) ∧
  heap (ClearCache db w) = heap w ∧
  (∀ sql session status,
     ∃ rest,
       trace (Get sql db session status (ClearCache db w)).2
       = trace (ClearCache db w)
         ++ EvCompile sql db (IsBatchRun session) :: rest) ∧
  (∀ other sql session status info,
     other ≠ db ->
     GetCacheLocked other sql (IsBatchRun session) (engine w) = Some info ->
     Get sql other session status (ClearCache db w)
     = (true, SetCompileInfo session info, status, ClearCache db w)).
Proof.
  assert (∀ sql is_batch,
    GetCacheLocked db sql is_batch (engine (ClearCache db w)) = None) as Hgone.
  { intros. simpl. rewrite GetCacheLocked_clear. by rewrite decide_True. }
  repeat split.
  - apply lookup_delete_eq.
  - apply lookup_delete_eq.
  - exact Hgone.
  - by apply lookup_delete_ne.
  - by apply lookup_delete_ne.
  - intros q session status. by apply Get_miss_compiles.
  - intros other q session status info Hne Hfind. apply Get_hit. simpl.
    rewrite GetCacheLocked_clear. by rewrite decide_False.
Qed.

(** *** The two modes *)

Lemma Get_other_cache sql db session status w :
  (IsBatchRun session = true ->
   request_cache_ (engine (Get sql db session status w).2)
   = request_cache_ (engine w)) ∧
  (IsBatchRun session = false ->
   batch_cache_ (engine (Get sql db session status w).2)
   = batch_cache_ (engine w)).
Proof.
  unfold Get. destruct (GetCacheLocked _ _ _ _); [done |].
  pose proof (Get_compile_engine sql db (IsBatchRun session) status w) as He.
  destruct (Get_compile sql db (IsBatchRun session) status w)
    as [[[info |] st] w1]; simpl in *; [| by rewrite He].
  pose proof (Get_insert_other_cache sql db session info w1) as Ho.
  destruct (Get_insert sql db session info w1) as [s2 w2]. simpl in *.
  rewrite <- He. exact Ho.
Qed.

(** A [Get] commutes with any change of the cache of the other mode: it
    neither reads nor writes it. *)
Lemma Get_with_other_cache cache sql db session status w :
  Get sql db session status
    (with_cache (negb (IsBatchRun session)) cache w)
  = ((Get sql db session status w).1,
     with_cache (negb (IsBatchRun session)) cache
       (Get sql db session status w).2).
Proof.
  destruct (IsBatchRun session) eqn:Hb; simpl.
  - by apply Get_batch_with_request_cache.
  - by apply Get_request_with_batch_cache.
Qed.

Lemma GetCacheLocked_cache_of db sql is_batch e :
  GetCacheLocked db sql is_batch e = find_entry db sql (cache_of is_batch e).
Proof. by destruct is_batch. Qed.

(** In a reachable world no CompileInfo is an entry of both caches. *)
Lemma batch_request_entries_distinct catalog options w
    db1 sql1 db2 sql2 info1 info2 :
  reachable catalog options w ->
  GetCacheLocked db1 sql1 true (engine w) = Some info1 ->
  GetCacheLocked db2 sql2 false (engine w) = Some info2 ->
  info1 ≠ info2.
Proof.
  intros Hr H1 H2 ->. apply reachable_cache_inv in Hr as [_ Hinj].
  by pose proof (Hinj _ _ _ _ _ _ _ H1 H2).
Qed.

(** C9.  One text of one database compiled in one mode and then in the
    other, in a world the engine can be in: the two sessions are bound to
    CompileInfo objects at different addresses, each the entry at the key
    of the cache of its own mode.  Each of the two calls leaves the cache
    of the other mode as it was, and returns the same, with the same
    cache of its own mode, under any other contents of the other mode's
    cache. *)
Theorem Get_mode_isolation catalog options sql db session1 session2
    status1 status2 w session1' status1' w1 session2' status2' w2 :
  reachable catalog options w ->
  IsBatchRun session2 = negb (IsBatchRun session1) ->
  Get sql db session1 status1 w = (true, session1', status1', w1) ->
  Get sql db session2 status2 w1 = (true, session2', status2', w2) ->
  ∃ info1 info2,
    compile_info_ session1' = Some info1 ∧
    compile_info_ session2' = Some info2 ∧
    info1 ≠ info2 ∧
    find_entry db sql (cache_of (IsBatchRun session1) (engine w2))
    = Some info1 ∧
    find_entry db sql (cache_of (IsBatchRun session2) (engine w2))
    = Some info2 ∧
    cache_of (IsBatchRun session2) (engine w1)
    = cache_of (IsBatchRun session2) (engine w) ∧
    cache_of (IsBatchRun session1) (engine w2)
    = cache_of (IsBatchRun session1) (engine w1) ∧
    (∀ cache,
       (Get sql db session1 status1
          (with_cache (IsBatchRun session2) cache w)).1
       = (true, session1', status1') ∧
       cache_of (IsBatchRun session1)
         (engine (Get sql db session1 status1
                    (with_cache (IsBatchRun session2) cache w)).2)
       = cache_of (IsBatchRun session1) (engine w1)) ∧
    (∀ cache,
       (Get sql db session2 status2
          (with_cache (IsBatchRun session1) cache w1)).1
       = (true, session2', status2') ∧
       cache_of (IsBatchRun session2)
         (engine (Get sql db session2 status2
                    (with_cache (IsBatchRun session1) cache w1)).2)
       = cache_of (IsBatchRun session2) (engine w2)).
Proof.
  intros Hr Hmode G1 G2.
  destruct (Get_success_cached _ _ _ _ _ G1) as (info1 & Hb1 & Hf1).
  destruct (Get_success_cached _ _ _ _ _ G2) as (info2 & Hb2 & Hf2).
  destruct (Get_other_cache sql db session1 status1 w) as [O1t O1f].
  destruct (Get_other_cache sql db session2 status2 w1) as [O2t O2f].
  pose proof (Get_with_other_cache) as C1.
  specialize (fun c => C1 c sql db session1 status1 w).
  pose proof (Get_with_other_cache) as C2.
  specialize (fun c => C2 c sql db session2 status2 w1).
  rewrite G1 in O1t, O1f, C1. rewrite G2 in O2t, O2f, C2. simpl in *.
  assert (reachable catalog options w2) as Hr2.
  { replace w2 with (Get sql db session2 status2 w1).2 by by rewrite G2.
    apply Get_reachable.
    replace w1 with (Get sql db session1 status1 w).2 by by rewrite G1.
    by apply Get_reachable. }
  rewrite GetCacheLocked_cache_of in Hf1, Hf2.
  assert (IsBatchRun session1 = negb (IsBatchRun session2)) as Hmode'.
  { rewrite Hmode. by destruct (IsBatchRun session1). }
  rewrite Hmode in C2. rewrite negb_involutive in C2.
  rewrite <- Hmode in C1.
  assert (cache_of (IsBatchRun session2) (engine w1)
          = cache_of (IsBatchRun session2) (engine w)) as F1.
  { rewrite Hmode. destruct (IsBatchRun session1); simpl; auto. }
  assert (cache_of (IsBatchRun session1) (engine w2)
          = cache_of (IsBatchRun session1) (engine w1)) as F2.
  { rewrite Hmode'. destruct (IsBatchRun session2); simpl; auto. }
  exists info1, info2. repeat split; try done.
  - rewrite <- F2 in Hf1. rewrite Hmode in Hf2.
    destruct (IsBatchRun session1); simpl in Hf1, Hf2.
    + eapply batch_request_entries_distinct; [exact Hr2 | exact Hf1 | exact Hf2].
    + apply not_eq_sym.
      eapply batch_request_entries_distinct; [exact Hr2 | exact Hf2 | exact Hf1].
  - by rewrite F2.
  - by rewrite C1.
  - rewrite C1. simpl. rewrite Hmode.
    by destruct (IsBatchRun session1).
  - by rewrite C2.
  - rewrite C2. simpl. rewrite Hmode'.
    by destruct (IsBatchRun session2).
Qed.

(** *** Run sessions *)

Lemma push_back_all_app (cur rows : list Row) :
  push_back_all cur rows = rows ++ cur.
Proof.
  revert rows. induction cur as [| value cur IH]; intros rows; simpl.
  - by rewrite app_nil_r.
  - by rewrite IH, <- app_assoc.
Qed.

(** One turn of the loop, in the iterator's own operations. *)
Lemma push_back_all_unfold (iter : RowIterator Row) (rows : list Row) :
  push_back_all (it_cur iter) rows
  = if Valid iter
    then push_back_all (it_cur (Next iter))
           (rows ++ option_list (Iter_GetValue iter))
    else rows.
Proof.
  unfold Valid, Iter_GetValue, Next. by destruct (it_cur iter).
Qed.

Lemma rows_of_table (table : TableHandler Row) (iter : RowIterator Row) :
  GetIterator table = Some iter -> rows_of table = it_table iter.
Proof.
  unfold rows_of. intros ->. simpl. apply push_back_all_app.
Qed.

(** With a table handler as the runner's output, the vector-collecting
    [Run] appends every row of the table, whatever [limit] is. *)
Lemma Run_rows_table (h : gmap ptr (CompileInfo Row ColumnDef)) session
    (rows : list Row) (limit : N) r table :
  session_runner h session = Some r ->
  RunWithCache r {| request := None; is_debug := is_debug_ session |}
  = Some (OfTable table) ->
  BatchRunSession_Run_rows h session rows limit
  = Some (0, rows ++ rows_of table).
Proof.
  unfold BatchRunSession_Run_rows, rows_of. intros Hr Ho.
  rewrite Hr. simpl. rewrite Ho.
  destruct (GetIterator table) as [iter |]; simpl.
  - by rewrite !push_back_all_app.
  - by rewrite app_nil_r.
Qed.

(** C10.  The vector-collecting [Run] never clears the caller's vector:
    whatever it held, the vector afterwards is its prior contents followed
    by the rows collected, which are those the same run collects into an
    empty vector; the return code does not depend on the prior contents
    either. *)
Theorem Run_rows_appends (h : gmap ptr (CompileInfo Row ColumnDef)) session
    (rows : list Row) (limit : N) (ret : Z) (rows' : list Row) :
  BatchRunSession_Run_rows h session rows limit = Some (ret, rows') ->
  ∃ collected,
    rows' = rows ++ collected ∧
    BatchRunSession_Run_rows h session [] limit = Some (ret, collected).
Proof.
  unfold BatchRunSession_Run_rows.
  destruct (session_runner h session) as [r |]; simpl; [| done].
  destruct (RunWithCache r _) as [[table | row | p] |]; simpl.
  - destruct (GetIterator table) as [iter |]; simpl.
    + intros [= <- <-]. exists (it_table iter).
      by rewrite !push_back_all_app.
    + intros [= <- <-]. exists []. by rewrite app_nil_r.
  - intros [= <- <-]. by exists [GetValue row].
  - intros [= <- <-]. exists []. by rewrite app_nil_r.
  - intros [= <- <-]. exists []. by rewrite app_nil_r.
Qed.

(** C6.  With a row handler holding [R] as the runner's output, the
    batch session's [Run()] returns a table handler whose iterator, placed
    on the first row, is valid with value [R] and is no longer valid after
    one [Next], so that the rows it yields are [R] alone; and the request
    session's [Run] returns 0 with [R] written to the caller's row. *)
Theorem Run_row_handler (h : gmap ptr (CompileInfo Row ColumnDef))
    batch request r_batch r_request (R in_row out_row : Row) :
  session_runner h batch = Some r_batch ->
  RunWithCache r_batch {| request := None; is_debug := is_debug_ batch |}
  = Some (OfRow {| GetValue := R |}) ->
  session_runner h request = Some r_request ->
  RunWithCache r_request
    {| request := Some in_row; is_debug := is_debug_ request |}
  = Some (OfRow {| GetValue := R |}) ->
  (∃ table iter,
     BatchRunSession_Run h batch = Some (Some table) ∧
     GetIterator table = Some iter ∧
     Valid (SeekToFirst iter) = true ∧
     Iter_GetValue (SeekToFirst iter) = Some R ∧
     Valid (Next (SeekToFirst iter)) = false ∧
     rows_of table = [R]) ∧
  RequestRunSession_Run h request in_row out_row = Some (0, R).
Proof.
  unfold BatchRunSession_Run, RequestRunSession_Run.
  intros Hb Hob Hq Hoq. rewrite Hb, Hq. simpl. rewrite Hob, Hoq.
  split; [| done]. by eexists _, _.
Qed.

(** C7.  With a partition handler as the runner's output, the request
    session's [Run] returns -1 and the caller's row is as it was, the
    batch session's vector-collecting [Run] returns -1 and the vector is
    as it was, and the batch session's [Run()] returns a null handler. *)
Theorem Run_partition_handler (h : gmap ptr (CompileInfo Row ColumnDef))
    batch request r_batch r_request p_batch p_request
    (in_row out_row : Row) (rows : list Row) (limit : N) :
  session_runner h batch = Some r_batch ->
  RunWithCache r_batch {| request := None; is_debug := is_debug_ batch |}
  = Some (OfPartition p_batch) ->
  session_runner h request = Some r_request ->
  RunWithCache r_request
    {| request := Some in_row; is_debug := is_debug_ request |}
  = Some (OfPartition p_request) ->
  RequestRunSession_Run h request in_row out_row = Some (-1, out_row) ∧
  BatchRunSession_Run_rows h batch rows limit = Some (-1, rows) ∧
  BatchRunSession_Run h batch = Some None.
Proof.
  unfold BatchRunSession_Run, BatchRunSession_Run_rows,
    RequestRunSession_Run.
  intros Hb Hob Hq Hoq. rewrite Hb, Hq. simpl. by rewrite Hob, Hoq.
Qed.

End Proofs.

(** ** The theorems at work on the small instance *)

Lemma Get_twice_same_CompileInfo_witness :
  ∃ info,
    compile_info_ demo_first.1.1.2 = Some info ∧
    GetCacheLocked demo_db demo_sql (IsBatchRun demo_batch_debug)
      (engine demo_first.2) = Some info ∧
    Get demo_Compile demo_BuildRunner demo_sql demo_db demo_batch_debug
      demo_status demo_first.2
    = (true, SetCompileInfo demo_batch_debug info, demo_status,
       demo_first.2) ∧
    trace (Get demo_Compile demo_BuildRunner demo_sql demo_db
             demo_batch_debug demo_status demo_first.2).2
    = trace demo_first.2.
Proof.
  apply (@Get_twice_same_CompileInfo _ _ _ demo_Compile demo_BuildRunner
           demo_sql demo_db demo_batch demo_batch_debug demo_status
           demo_status demo_world demo_first.1.1.2 demo_first.1.2
           demo_first.2).
  - reflexivity.
  - vm_compute. reflexivity.
Defined.

Lemma Get_insert_never_overwrites_witness :
  GetCacheLocked demo_db demo_sql true (engine demo_race) = Some 1%positive ∧
  compile_info_
    (Get_insert demo_sql demo_db demo_batch 2%positive demo_race).1
  = Some 1%positive ∧
  engine (Get_insert demo_sql demo_db demo_batch 2%positive demo_race).2
  = engine demo_race ∧
  heap (Get_insert demo_sql demo_db demo_batch 2%positive demo_race).2
    !! 2%positive = None.
Proof.
  assert (GetCacheLocked demo_db demo_sql (IsBatchRun demo_batch)
            (engine demo_race) = Some 1%positive) as Hfind.
  { vm_compute. reflexivity. }
  split; [exact Hfind |].
  destruct (@Get_insert_never_overwrites string string unit demo_sql
              demo_db demo_batch 2%positive 1%positive demo_race Hfind)
    as (Hbound & Hengine & _ & _ & Hgone & _).
  exact (conj Hbound (conj Hengine Hgone)).
Defined.

Lemma Get_failure_caches_nothing_witness :
  (Get demo_Compile demo_BuildRunner "norunner" demo_db demo_batch
     demo_status demo_world).1
  = (false, demo_batch, {| code := 2; msg := "no runner" |}) ∧
  engine (Get demo_Compile demo_BuildRunner "norunner" demo_db demo_batch
            demo_status demo_world).2
  = engine demo_world.
Proof.
  destruct (@Get_failure_caches_nothing string string unit demo_Compile
              demo_BuildRunner "norunner" demo_db demo_batch demo_status
              demo_world
              demo_compiled.1.1 demo_compiled.1.2 demo_compiled.2
              demo_built.1.1 demo_built.1.2 demo_built.2)
    as (Hret & Hengine & _).
  - vm_compute. reflexivity.
  - vm_compute. reflexivity.
  - vm_compute. reflexivity.
  - right. split; vm_compute; reflexivity.
  - exact (conj Hret Hengine).
Defined.

Lemma Get_mode_isolation_witness :
  ∃ info1 info2,
    compile_info_ demo_first.1.1.2 = Some info1 ∧
    compile_info_ demo_second.1.1.2 = Some info2 ∧
    info1 ≠ info2 ∧
    find_entry demo_db demo_sql (batch_cache_ (engine demo_second.2))
    = Some info1 ∧
    find_entry demo_db demo_sql (request_cache_ (engine demo_second.2))
    = Some info2.
Proof.
  destruct (@Get_mode_isolation string string unit demo_Compile
              demo_BuildRunner false tt demo_options demo_sql demo_db
              demo_batch demo_request demo_status demo_status demo_world
              demo_first.1.1.2 demo_first.1.2 demo_first.2
              demo_second.1.1.2 demo_second.1.2 demo_second.2)
    as (info1 & info2 & H1 & H2 & Hne & Hb & Hr & _).
  - apply rtc_refl.
  - reflexivity.
  - vm_compute. reflexivity.
  - vm_compute. reflexivity.
  - exists info1, info2. exact (conj H1 (conj H2 (conj Hne (conj Hb Hr)))).
Defined.

Lemma Run_rows_appends_witness :
  ∃ collected,
    ["x"; "r1"; "r2"; "r3"] = ["x"] ++ collected ∧
    BatchRunSession_Run_rows (demo_store (Some (OfTable demo_table)))
      (demo_bound demo_batch) [] 5%N
    = Some (0, collected).
Proof.
  apply (@Run_rows_appends string string
           (demo_store (Some (OfTable demo_table))) (demo_bound demo_batch)
           ["x"] 5%N 0 ["x"; "r1"; "r2"; "r3"]).
  vm_compute. reflexivity.
Defined.

Lemma Run_row_handler_witness :
  (∃ table, BatchRunSession_Run
              (demo_store (Some (OfRow {| GetValue := "R" |})))
              (demo_bound demo_batch) = Some (Some table) ∧
            rows_of table = ["R"]) ∧
  RequestRunSession_Run (demo_store (Some (OfRow {| GetValue := "R" |})))
    (demo_bound demo_request) "in" "out"
  = Some (0, "R").
Proof.
  destruct (@Run_row_handler string string
              (demo_store (Some (OfRow {| GetValue := "R" |})))
              (demo_bound demo_batch) (demo_bound demo_request)
              (demo_const_runner (Some (OfRow {| GetValue := "R" |})))
              (demo_const_runner (Some (OfRow {| GetValue := "R" |})))
              "R" "in" "out")
    as [(table & iter & Hrun & _ & _ & _ & _ & Hrows) Hreq].
  - vm_compute. reflexivity.
  - reflexivity.
  - vm_compute. reflexivity.
  - reflexivity.
  - split; [| exact Hreq]. exists table. exact (conj Hrun Hrows).
Defined.

Lemma Run_partition_handler_witness :
  RequestRunSession_Run (demo_store (Some (OfPartition demo_partition)))
    (demo_bound demo_request) "in" "out"
  = Some (-1, "out") ∧
  BatchRunSession_Run_rows (demo_store (Some (OfPartition demo_partition)))
    (demo_bound demo_batch) ["x"] 5%N
  = Some (-1, ["x"]) ∧
  BatchRunSession_Run (demo_store (Some (OfPartition demo_partition)))
    (demo_bound demo_batch)
  = Some None.
Proof.
  apply (@Run_partition_handler string string
           (demo_store (Some (OfPartition demo_partition)))
           (demo_bound demo_batch) (demo_bound demo_request)
           (demo_const_runner (Some (OfPartition demo_partition)))
           (demo_const_runner (Some (OfPartition demo_partition)))
           demo_partition demo_partition "in" "out" ["x"] 5%N).
  - vm_compute. reflexivity.
  - reflexivity.
  - vm_compute. reflexivity.
  - reflexivity.
Defined.

(** C2.  The vector-collecting [Run] on a table handler of three rows,
    called with limit 1 on an empty vector: it returns 0 with all three
    rows in the vector, more than the limit allows.  The loop pushes a
    row for every valid position of the iterator and [limit] is never
    read. *)
Theorem Run_rows_limit_not_enforced :
  BatchRunSession_Run_rows (demo_store (Some (OfTable demo_table)))
    (demo_bound demo_batch) [] 1%N
  = Some (0, ["r1"; "r2"; "r3"]) ∧
  (N.to_nat 1 < length ["r1"; "r2"; "r3"])%nat.
Proof. split; [vm_compute; reflexivity | simpl; lia]. Qed.

Lemma Explain_never_touches_cache_witness :
  GetCacheLocked demo_db demo_sql true (engine demo_first.2)
  = Some 1%positive ∧
  engine (Explain demo_Compile false demo_sql demo_db true
            (Some demo_explain_output) (Some demo_status) demo_first.2).2
  = engine demo_first.2 ∧
  trace (Explain demo_Compile false demo_sql demo_db true
           (Some demo_explain_output) (Some demo_status) demo_first.2).2
  = trace demo_first.2 ++ [EvCompile demo_sql demo_db true].
Proof.
  split; [vm_compute; reflexivity |].
  destruct (@Explain_never_touches_cache string string unit demo_Compile
              demo_BuildRunner false demo_sql demo_db true
              (Some demo_explain_output) (Some demo_status) demo_first.2)
    as (Hengine & _ & _ & _ & _ & Htrace & _).
  exact (conj Hengine (Htrace _ _ eq_refl eq_refl)).
Defined.

Lemma ClearCache_scoped_witness :
  GetCacheLocked demo_db demo_sql true (engine demo_third.2)
  = Some 1%positive ∧
  GetCacheLocked demo_db demo_sql true
    (engine (ClearCache demo_db demo_third.2)) = None ∧
  GetCacheLocked demo_db demo_sql false
    (engine (ClearCache demo_db demo_third.2)) = None ∧
  Get demo_Compile demo_BuildRunner demo_sql "db2" demo_batch_debug
    demo_status (ClearCache demo_db demo_third.2)
  = (true, SetCompileInfo demo_batch_debug 3%positive, demo_status,
     ClearCache demo_db demo_third.2).
Proof.
  split; [vm_compute; reflexivity |].
  destruct (@ClearCache_scoped string string unit demo_Compile
              demo_BuildRunner demo_db demo_third.2)
    as (_ & _ & Hgone & _ & _ & _ & Hhit).
  refine (conj (Hgone _ _) (conj (Hgone _ _) (Hhit _ _ _ _ _ _ _))).
  - discriminate.
  - vm_compute. reflexivity.
Defined.

(** ** Further properties of the engine and the sessions *)

Section Further.

Variables Row ColumnDef Catalog : Type.
Variables Compile BuildRunner :
  SQLCompiler Catalog -> SQLContext Row ColumnDef -> Status ->
  bool * SQLContext Row ColumnDef * Status.
Variable plan_only_default : bool.

Local Abbreviation Get := (Get Compile BuildRunner).
Local Abbreviation Get_compile := (Get_compile Compile BuildRunner).
Local Abbreviation Explain := (Explain Compile plan_only_default).
Local Abbreviation step := (step Compile BuildRunner plan_only_default).
Local Abbreviation reachable :=
  (reachable Compile BuildRunner plan_only_default).

Implicit Types (w : World Row ColumnDef Catalog) (e : Engine Catalog).
Implicit Types (h : gmap ptr (CompileInfo Row ColumnDef)).
Implicit Types (session : RunSession) (status : Status) (info : ptr).
Implicit Types (sql db : string) (is_batch : bool).
Implicit Types (catalog : Catalog) (options : EngineOptions).
Implicit Types (rows : list Row) (limit : N).

(** *** Get on a miss *)

(** X1.  A miss on an engine that builds runners, when both compiler calls
    succeed: [Get] returns true with the status the runner construction
    left, the session is bound to a fresh address, the store holds there
    the context [BuildRunner] returned, the cache of the mode maps the key
    to that address, and the compiler was asked exactly for one
    compilation followed by one runner construction. *)
Theorem Get_miss_builds_and_caches sql db session status w
    ok ctx st ok' ctx' st' :
  GetCacheLocked db sql (IsBatchRun session) (engine w) = None ->
  is_compile_only (options_ (engine w)) = false ->
  Compile (Get_compiler (engine w))
    (fresh_context Row ColumnDef sql db (IsBatchRun session)) status
  = (ok, ctx, st) ->
  failed ok st = false ->
  BuildRunner (Get_compiler (engine w)) ctx st = (ok', ctx', st') ->
  failed ok' st' = false ->
  (Get sql db session status w).1
  = (true, SetCompileInfo session (fresh (dom (heap w))), st') ∧
  heap w !! fresh (dom (heap w)) = None ∧
  heap (Get sql db session status w).2
  = <[fresh (dom (heap w)) := {| get_sql_context := ctx' |}]> (heap w) ∧
  GetCacheLocked db sql (IsBatchRun session)
    (engine (Get sql db session status w).2)
  = Some (fresh (dom (heap w))) ∧
  trace (Get sql db session status w).2
  = trace w ++ [EvCompile sql db (IsBatchRun session);
                EvBuildRunner sql db (IsBatchRun session)].
Proof.
  intros Hmiss Hco Hc Hf Hb Hf'.
  unfold Get, Get_compile. rewrite Hmiss, Hc. simpl.
  rewrite Hf, Hco, Hb. simpl. rewrite Hf'.
  set (info := fresh (dom (heap w))).
  set (w1 := store info _ _).
  assert (GetCacheLocked db sql (IsBatchRun session) (engine w1) = None)
    as Hmiss1 by done.
  destruct (Get_insert_absent _ _ _ info _ Hmiss1) as (Hs & Hh & Ht & Hk).
  destruct (Get_insert sql db session info w1) as [s2 w2]. simpl in *.
  subst s2. rewrite Hh, Ht, Hk. repeat split.
  - apply not_elem_of_dom, is_fresh.
  - by rewrite decide_True.
  - by rewrite <- app_assoc.
Qed.

(** X2.  A miss on a compile-only engine: the runner construction is never
    requested.  [Get] succeeds exactly when the compilation does, the
    caller reads the status the compilation left, and on success the
    artifact cached at the fresh address holds the context as the
    compilation returned it. *)
Theorem Get_compile_only sql db session status w ok ctx st :
  GetCacheLocked db sql (IsBatchRun session) (engine w) = None ->
  is_compile_only (options_ (engine w)) = true ->
  Compile (Get_compiler (engine w))
    (fresh_context Row ColumnDef sql db (IsBatchRun session)) status
  = (ok, ctx, st) ->
  (Get sql db session status w).1.1.1 = negb (failed ok st) ∧
  (Get sql db session status w).1.2 = st ∧
  trace (Get sql db session status w).2
  = trace w ++ [EvCompile sql db (IsBatchRun session)] ∧
  (failed ok st = false ->
   (Get sql db session status w).1.1.2
   = SetCompileInfo session (fresh (dom (heap w))) ∧
   heap (Get sql db session status w).2
   = <[fresh (dom (heap w)) := {| get_sql_context := ctx |}]> (heap w) ∧
   GetCacheLocked db sql (IsBatchRun session)
     (engine (Get sql db session status w).2)
   = Some (fresh (dom (heap w)))).
Proof.
  intros Hmiss Hco Hc.
  unfold Get, Get_compile. rewrite Hmiss, Hc. simpl.
  destruct (failed ok st) eqn:Hf; simpl; [done |].
  rewrite Hco. simpl.
  set (info := fresh (dom (heap w))).
  set (w1 := store info _ _).
  assert (GetCacheLocked db sql (IsBatchRun session) (engine w1) = None)
    as Hmiss1 by done.
  destruct (Get_insert_absent _ _ _ info _ Hmiss1) as (Hs & Hh & Ht & Hk).
  destruct (Get_insert sql db session info w1) as [s2 w2]. simpl in *.
  subst s2. rewrite Hh, Ht, Hk. repeat split.
  by rewrite decide_True.
Qed.

(** *** What a Get leaves alone *)

(** X3.  [Get] changes the answer of no lookup but the one for its own mode,
    database and text. *)
Theorem Get_changes_only_its_key sql db session status w is_batch db' sql' :
  (is_batch, db', sql') ≠ (IsBatchRun session, db, sql) ->
  GetCacheLocked db' sql' is_batch (engine (Get sql db session status w).2)
  = GetCacheLocked db' sql' is_batch (engine w).
Proof.
  intros Hne. unfold Get.
  destruct (GetCacheLocked db sql (IsBatchRun session) (engine w))
    as [hit |] eqn:Hfind; [done |].
  pose proof (Get_compile_engine Compile BuildRunner sql db
                (IsBatchRun session) status w) as He.
  destruct (Get_compile sql db (IsBatchRun session) status w)
    as [[[fresh_info |] st] w1]; simpl in *; [| by rewrite He].
  rewrite <- He in Hfind. rewrite <- He.
  destruct (Get_insert_absent _ _ _ fresh_info _ Hfind) as (_ & _ & _ & Hk).
  destruct (Get_insert sql db session fresh_info w1) as [s2 w2].
  simpl in *. rewrite Hk.
  destruct (decide (_ ∧ _)) as [(-> & -> & ->) |]; [done | done].
Qed.

(** X4.  [Get] touches the session's binding only: its class and its debug flag
    are kept, and a [Get] that returns false keeps the binding too. *)
Theorem Get_session_frame sql db session status w :
  kind (Get sql db session status w).1.1.2 = kind session ∧
  is_debug_ (Get sql db session status w).1.1.2 = is_debug_ session ∧
  ((Get sql db session status w).1.1.1 = false ->
   (Get sql db session status w).1.1.2 = session) ∧
  ((Get sql db session status w).1.1.1 = true ->
   is_Some (compile_info_ (Get sql db session status w).1.1.2)).
Proof.
  unfold Get.
  destruct (GetCacheLocked db sql (IsBatchRun session) (engine w))
    as [hit |] eqn:Hfind; simpl; [by eauto |].
  pose proof (Get_compile_engine Compile BuildRunner sql db
                (IsBatchRun session) status w) as He.
  destruct (Get_compile sql db (IsBatchRun session) status w)
    as [[[fresh_info |] st] w1]; simpl in *; [| done].
  rewrite <- He in Hfind.
  destruct (Get_insert_absent _ _ _ fresh_info _ Hfind) as (Hs & _).
  destruct (Get_insert sql db session fresh_info w1) as [s2 w2].
  simpl in *. subst s2. simpl. by eauto.
Qed.

(** *** The store under Get, and sessions bound earlier *)

Lemma Get_store_frame sql db session status w info :
  info ∈ dom (heap w) ->
  heap (Get sql db session status w).2 !! info = heap w !! info.
Proof.
  intros Hlive. unfold Get.
  destruct (GetCacheLocked db sql (IsBatchRun session) (engine w))
    as [hit |] eqn:Hfind; [done |].
  pose proof (Get_compile_engine Compile BuildRunner sql db
                (IsBatchRun session) status w) as He.
  destruct (Get_compile sql db (IsBatchRun session) status w)
    as [[[fresh_info |] st] w1] eqn:E; simpl in *.
  - rewrite <- He in Hfind.
    destruct (Get_insert_absent _ _ _ fresh_info _ Hfind) as (_ & Hh & _).
    destruct (Get_insert sql db session fresh_info w1) as [s2 w2].
    simpl in *. rewrite Hh.
    apply Get_compile_Some in E as (-> & compile_info & ->).
    apply lookup_insert_ne. intros Heq. rewrite <- Heq in Hlive.
    by apply is_fresh in Hlive.
  - apply Get_compile_None in E. by rewrite E.
Qed.

(** The three [Run] functions read the store through the session's runner
    only. *)
Lemma Run_same_runner h h' session (in_row out_row : Row) rows limit :
  session_runner h' session = session_runner h session ->
  RequestRunSession_Run h' session in_row out_row
  = RequestRunSession_Run h session in_row out_row ∧
  BatchRunSession_Run h' session = BatchRunSession_Run h session ∧
  BatchRunSession_Run_rows h' session rows limit
  = BatchRunSession_Run_rows h session rows limit.
Proof.
  unfold RequestRunSession_Run, BatchRunSession_Run,
    BatchRunSession_Run_rows. by intros ->.
Qed.

Lemma session_runner_same_artifact h h' session info :
  compile_info_ session = Some info ->
  h' !! info = h !! info ->
  session_runner h' session = session_runner h session.
Proof. unfold session_runner. intros -> Hh. simpl. by rewrite Hh. Qed.

(** X5.  A session bound to a live artifact is not disturbed by what the
    engine does later for anybody: after any [Get], any [Explain] and any
    [ClearCache], also of its own database, each of its [Run] functions
    returns what it returned before. *)
Theorem bound_session_undisturbed sql db other status w bound info
    is_batch explain_output status_ptr (in_row out_row : Row) rows limit :
  compile_info_ bound = Some info ->
  info ∈ dom (heap w) ->
  ∀ w',
    w' = (Get sql db other status w).2 ∨
    w' = (Explain sql db is_batch explain_output status_ptr w).2 ∨
    w' = ClearCache db w ->
    RequestRunSession_Run (heap w') bound in_row out_row
    = RequestRunSession_Run (heap w) bound in_row out_row ∧
    BatchRunSession_Run (heap w') bound = BatchRunSession_Run (heap w) bound ∧
    BatchRunSession_Run_rows (heap w') bound rows limit
    = BatchRunSession_Run_rows (heap w) bound rows limit.
Proof.
  intros Hbound Hlive w' Hw'. apply Run_same_runner.
  eapply session_runner_same_artifact; [exact Hbound |].
  destruct Hw' as [-> | [-> | ->]].
  - by apply Get_store_frame.
  - by destruct (Explain_frame Compile plan_only_default sql db is_batch
                   explain_output status_ptr w) as [_ ->].
  - done.
Qed.

(** A [Get] that misses and succeeds binds the session to the address
    that was fresh, and adds one artifact to the store there. *)
Lemma Get_miss_success_fresh sql db session status w session' status' w' :
  GetCacheLocked db sql (IsBatchRun session) (engine w) = None ->
  Get sql db session status w = (true, session', status', w') ->
  compile_info_ session' = Some (fresh (dom (heap w))) ∧
  ∃ compile_info,
    heap w' = <[fresh (dom (heap w)) := compile_info]> (heap w).
Proof.
  intros Hmiss. unfold Get. rewrite Hmiss.
  pose proof (Get_compile_engine Compile BuildRunner sql db
                (IsBatchRun session) status w) as He.
  destruct (Get_compile sql db (IsBatchRun session) status w)
    as [[[fresh_info |] st] w1] eqn:E; simpl in *; [| done].
  rewrite <- He in Hmiss.
  destruct (Get_insert_absent _ _ _ fresh_info _ Hmiss) as (Hs & Hh & _).
  destruct (Get_insert sql db session fresh_info w1) as [s2 w2].
  simpl in *. intros [= <- <- <-]. subst s2.
  apply Get_compile_Some in E as (-> & compile_info & Hh1).
  split; [done |]. exists compile_info. by rewrite Hh, Hh1.
Qed.

Lemma Get_success_live catalog options sql db session status w
    session' status' w' :
  reachable catalog options w ->
  Get sql db session status w = (true, session', status', w') ->
  ∃ info compile_info,
    compile_info_ session' = Some info ∧
    heap w' !! info = Some compile_info ∧
    session_runner (heap w') session' = runner (get_sql_context compile_info) ∧
    GetCacheLocked db sql (IsBatchRun session) (engine w') = Some info.
Proof.
  intros Hr G.
  assert (cache_inv w') as [Hlive _].
  { eapply reachable_cache_inv.
    replace w' with (Get sql db session status w).2 by by rewrite G.
    by apply Get_reachable. }
  pose proof G as G'.
  apply Get_success_cached in G' as (info & Hbound & Hfind).
  pose proof (Hlive _ _ _ _ Hfind) as Hin.
  apply elem_of_dom in Hin as [compile_info Hci].
  exists info, compile_info. repeat split; try done.
  unfold session_runner. rewrite Hbound. simpl. by rewrite Hci.
Qed.

(** X6.  In a world the engine can be in, a session that a successful [Get]
    has bound never dangles: its address is live in the store and is the
    entry of the cache of its mode at the key. *)
Theorem Get_binds_live_artifact catalog options sql db session status w
    session' status' w' :
  reachable catalog options w ->
  Get sql db session status w = (true, session', status', w') ->
  ∃ info compile_info,
    compile_info_ session' = Some info ∧
    heap w' !! info = Some compile_info ∧
    session_runner (heap w') session' = runner (get_sql_context compile_info) ∧
    GetCacheLocked db sql (IsBatchRun session) (engine w') = Some info.
Proof. apply Get_success_live. Qed.

(** X7.  Recompilation after a clear.  A session bound by a [Get], then
    [ClearCache] of its database, then a successful [Get] for the same
    key: the second call is bound to another object than the first, the
    cache now holds the new one, and the first session's artifact is in
    the store as before, so that the session runs on the artifact it was
    given. *)
Theorem ClearCache_then_Get_recompiles catalog options sql db
    old new status1 status2 w old' status1' w1 new' status2' w2 :
  reachable catalog options w ->
  IsBatchRun new = IsBatchRun old ->
  Get sql db old status1 w = (true, old', status1', w1) ->
  Get sql db new status2 (ClearCache db w1) = (true, new', status2', w2) ->
  ∃ info1 info2,
    compile_info_ old' = Some info1 ∧
    compile_info_ new' = Some info2 ∧
    info1 ≠ info2 ∧
    GetCacheLocked db sql (IsBatchRun new) (engine w2) = Some info2 ∧
    is_Some (heap w1 !! info1) ∧
    heap w2 !! info1 = heap w1 !! info1 ∧
    session_runner (heap w2) old' = session_runner (heap w1) old'.
Proof.
  intros Hr Hmode G1 G2.
  pose proof G1 as G1'.
  eapply Get_success_live in G1'
    as (info1 & ci1 & Hb1 & Hci1 & _ & _); [| exact Hr].
  assert (GetCacheLocked db sql (IsBatchRun new) (engine (ClearCache db w1))
          = None) as Hmiss.
  { simpl. rewrite GetCacheLocked_clear. by rewrite decide_True. }
  pose proof G2 as G2''.
  apply Get_miss_success_fresh in G2'' as (Hb2 & ci2 & Hh2); [| exact Hmiss].
  pose proof G2 as G2'.
  apply Get_success_cached in G2' as (info2 & Hb2' & Hfind2).
  simpl in Hb2, Hh2.
  assert (info1 ≠ fresh (dom (heap w1))) as Hne.
  { intros Heq. pose proof (is_fresh (dom (heap w1))) as Hfresh.
    rewrite <- Heq in Hfresh. apply Hfresh, elem_of_dom. by eexists. }
  assert (heap w2 !! info1 = heap w1 !! info1) as Hsame.
  { rewrite Hh2. by apply lookup_insert_ne. }
  exists info1, (fresh (dom (heap w1))). split_and!; try done.
  - rewrite Hfind2. congruence.
  - by eapply session_runner_same_artifact.
Qed.

(** *** Two threads, one key *)

(** X8.  Two insertions for one key that the cache does not hold, as made by
    two threads that both missed and compiled: the first to insert wins.
    Both sessions are bound to the first thread's artifact, the cache maps
    the key to it, and the second thread's artifact is released from the
    store, which is otherwise as it was. *)
Theorem first_insert_wins sql db session1 session2 info1 info2 w :
  GetCacheLocked db sql (IsBatchRun session1) (engine w) = None ->
  IsBatchRun session2 = IsBatchRun session1 ->
  info1 ≠ info2 ->
  compile_info_ (Get_insert sql db session1 info1 w).1 = Some info1 ∧
  compile_info_
    (Get_insert sql db session2 info2
       (Get_insert sql db session1 info1 w).2).1
  = Some info1 ∧
  GetCacheLocked db sql (IsBatchRun session1)
    (engine (Get_insert sql db session2 info2
               (Get_insert sql db session1 info1 w).2).2)
  = Some info1 ∧
  heap (Get_insert sql db session2 info2
          (Get_insert sql db session1 info1 w).2).2
  = delete info2 (heap w) ∧
  heap (Get_insert sql db session2 info2
          (Get_insert sql db session1 info1 w).2).2 !! info1
  = heap w !! info1.
Proof.
  intros Hmiss Hmode Hne.
  destruct (Get_insert_absent _ _ _ info1 _ Hmiss) as (Hs & Hh & _ & Hk).
  assert (GetCacheLocked db sql (IsBatchRun session2)
            (engine (Get_insert sql db session1 info1 w).2) = Some info1)
    as Hfound.
  { rewrite Hk, Hmode. by rewrite decide_True. }
  rewrite (Get_insert_present _ _ _ info2 _ Hfound). simpl.
  rewrite Hs, Hh. rewrite Hmode in Hfound. repeat split; try done.
  by apply lookup_delete_ne.
Qed.

(** *** What holds in every world the engine can be in *)

Lemma step_config w w' :
  step w w' ->
  cl_ (engine w') = cl_ (engine w) ∧
  options_ (engine w') = options_ (engine w).
Proof.
  intros Hstep.
  destruct Hstep as [q d b st w | q d s info w Hu | q d b out st w | d w].
  - by rewrite Get_compile_engine.
  - unfold Get_insert. destruct (IsBatchRun s).
    + destruct (subscript d _) as [sql_in_db cache].
      by destruct (sql_in_db !! q).
    + destruct (subscript d _) as [sql_in_db cache].
      by destruct (sql_in_db !! q).
  - by destruct (Explain_frame Compile plan_only_default q d b out st w)
      as [-> _].
  - done.
Qed.

(** X9.  The operations never assign the catalog reference or the options:
    whatever calls have run and however they interleaved, the engine
    compiles on the catalog and under the options it was constructed
    with. *)
Theorem reachable_config_fixed catalog options w :
  reachable catalog options w ->
  cl_ (engine w) = catalog ∧ options_ (engine w) = options.
Proof.
  unfold reachable. intros Hr.
  eapply (rtc_ind_r
            (λ w, cl_ (engine w) = catalog ∧ options_ (engine w) = options));
    [| | exact Hr].
  - done.
  - intros w1 w2 _ Hs [IH1 IH2].
    destruct (step_config Hs) as [-> ->]. done.
Qed.

(** X10.  Whatever calls have run and however they interleaved: every entry of
    either cache is the address of an artifact live in the store, and two
    lookups that find the same artifact are the same lookup, so that no
    artifact is shared between two texts, two databases or the two
    modes. *)
Theorem reachable_caches_wellformed catalog options w
    b1 db1 sql1 b2 db2 sql2 info1 info2 :
  reachable catalog options w ->
  GetCacheLocked db1 sql1 b1 (engine w) = Some info1 ->
  GetCacheLocked db2 sql2 b2 (engine w) = Some info2 ->
  is_Some (heap w !! info1) ∧
  is_Some (heap w !! info2) ∧
  (info1 = info2 -> b1 = b2 ∧ db1 = db2 ∧ sql1 = sql2).
Proof.
  intros Hr H1 H2. apply reachable_cache_inv in Hr as [Hlive Hinj].
  split_and!.
  - eapply elem_of_dom, Hlive, H1.
  - eapply elem_of_dom, Hlive, H2.
  - intros ->. by pose proof (Hinj _ _ _ _ _ _ _ H1 H2) as [= -> -> ->].
Qed.

(** *** The calls a Get makes to the compiler *)

(** X11.  One [Get] asks the compiler for nothing, or for one compilation, or
    for one compilation followed by one runner construction, and for
    nothing else; for nothing when the key is cached, and never for a
    runner construction when the engine is compile-only. *)
Theorem Get_compiler_calls sql db session status w :
  ∃ calls,
    trace (Get sql db session status w).2 = trace w ++ calls ∧
    (calls = [] ∨
     calls = [EvCompile sql db (IsBatchRun session)] ∨
     calls = [EvCompile sql db (IsBatchRun session);
              EvBuildRunner sql db (IsBatchRun session)]) ∧
    (is_Some (GetCacheLocked db sql (IsBatchRun session) (engine w)) ->
     calls = []) ∧
    (is_compile_only (options_ (engine w)) = true ->
     calls ≠ [EvCompile sql db (IsBatchRun session);
              EvBuildRunner sql db (IsBatchRun session)]).
Proof.
  unfold Get.
  destruct (GetCacheLocked db sql (IsBatchRun session) (engine w))
    as [hit |] eqn:Hfind.
  { exists []. simpl. rewrite app_nil_r. split_and!; auto. }
  assert (∃ calls,
    trace (Get_compile sql db (IsBatchRun session) status w).2
    = trace w ++ calls ∧
    (calls = [EvCompile sql db (IsBatchRun session)] ∨
     calls = [EvCompile sql db (IsBatchRun session);
              EvBuildRunner sql db (IsBatchRun session)]) ∧
    (is_compile_only (options_ (engine w)) = true ->
     calls = [EvCompile sql db (IsBatchRun session)]))
    as (calls & Ht & Hshape & Hco).
  { unfold Get_compile.
    destruct (Compile _ _ _) as [[ok ctx] st]; simpl.
    destruct (failed ok st); simpl; [by eauto |].
    destruct (is_compile_only _); simpl; [by eauto |].
    destruct (BuildRunner _ _ _) as [[ok' ctx'] st']; simpl.
    destruct (failed ok' st'); simpl; rewrite <- app_assoc;
      eexists; split_and!; eauto; done. }
  pose proof (Get_compile_engine Compile BuildRunner sql db
                (IsBatchRun session) status w) as He.
  exists calls.
  assert (calls ≠ []) as Hnil by (destruct Hshape as [-> | ->]; done).
  destruct (Get_compile sql db (IsBatchRun session) status w)
    as [[[fresh_info |] st] w1]; simpl in *.
  - rewrite <- He in Hfind.
    destruct (Get_insert_absent _ _ _ fresh_info _ Hfind)
      as (_ & _ & Htr & _).
    destruct (Get_insert sql db session fresh_info w1) as [s2 w2].
    simpl in *. rewrite Htr. split_and!; auto.
    + by intros [? ?].
    + intros Hc. rewrite (Hco Hc). done.
  - split_and!; auto.
    + by intros [? ?].
    + intros Hc. rewrite (Hco Hc). done.
Qed.

(** *** Explain *)

(** X12.  A null output pointer or a null status pointer: [Explain] returns
    false at once; the compiler is not called, nothing is written
    through the other pointer, and the world is as it was. *)
Theorem Explain_null_argument sql db is_batch explain_output status_ptr w :
  explain_output = None ∨ status_ptr = None ->
  Explain sql db is_batch explain_output status_ptr w
  = (false, explain_output, status_ptr, w).
Proof.
  unfold Explain. intros [-> | ->]; [done |]. by destruct explain_output.
Qed.

(** X13.  [Explain] with both pointers set runs the one compilation on a
    compiler that keeps the IR and dumps plans whatever the engine's
    options say, so its result is the same under any other options.  When
    the compilation fails it returns false with the output left as the
    caller passed it; otherwise it returns true with the schemas, the two
    plans and the IR of the compiled context; either way the status is the
    one the compilation left. *)
Theorem Explain_result sql db is_batch out st w ok ctx st' :
  Compile (Explain_compiler plan_only_default (engine w))
    (fresh_context Row ColumnDef sql db is_batch) st
  = (ok, ctx, st') ->
  (Explain sql db is_batch (Some out) (Some st) w).1
  = (negb (failed ok st'),
     Some (if failed ok st' then out else explained ctx),
     Some st') ∧
  ∀ options,
    (Explain sql db is_batch (Some out) (Some st) (with_options options w)).1
    = (Explain sql db is_batch (Some out) (Some st) w).1.
Proof.
  intros Hc. unfold Explain, Explain_compiler in *. simpl. rewrite Hc.
  by destruct (failed ok st').
Qed.

(** *** ClearCache *)

(** X14.  Clearing a database that neither cache holds changes nothing;
    clearing twice is clearing once; and clears of two databases can be
    done in either order. *)
Theorem ClearCache_algebra db db' w :
  (batch_cache_ (engine w) !! db = None ->
   request_cache_ (engine w) !! db = None ->
   ClearCache db w = w) ∧
  ClearCache db (ClearCache db w) = ClearCache db w ∧
  ClearCache db (ClearCache db' w) = ClearCache db' (ClearCache db w).
Proof.
  destruct w as [[c o bc rc] hp tr].
  unfold ClearCache, ClearCacheLocked, set_engine. simpl. split_and!.
  - intros Hb Hq. by rewrite !delete_id.
  - by rewrite !delete_delete_eq.
  - by rewrite (delete_delete bc db db'), (delete_delete rc db db').
Qed.

(** *** Construction *)

(** X15.  A newly constructed engine has nothing cached in either mode: every
    lookup misses, the first [Get] for any key starts by asking the
    compiler to compile it, and [ClearCache] of any database changes
    nothing. *)
Theorem Engine_new_caches_nothing catalog options sql db session status :
  (∀ is_batch,
     GetCacheLocked db sql is_batch (Engine_new catalog options) = None) ∧
  (∃ rest,
     trace (Get sql db session status
              (World_new Row ColumnDef catalog options)).2
     = EvCompile sql db (IsBatchRun session) :: rest) ∧
  ClearCache db (World_new Row ColumnDef catalog options)
  = World_new Row ColumnDef catalog options.
Proof.
  assert (∀ is_batch,
    GetCacheLocked db sql is_batch (Engine_new catalog options) = None)
    as Hmiss.
  { intros []; apply find_entry_empty. }
  split_and!; [exact Hmiss | |].
  - destruct (Get_miss_compiles Compile BuildRunner sql db session status
                (World_new Row ColumnDef catalog options)
                (Hmiss (IsBatchRun session))) as [rest Hrest].
    by exists rest.
  - unfold ClearCache, ClearCacheLocked, World_new, Engine_new, set_engine.
    simpl. by rewrite delete_empty.
Qed.

(** X16.  [InitializeGlobalLLVM] initialises once per process: from the initial
    state any positive number of calls leaves the flag set with each of
    the two LLVM initialisers called exactly once, and from any state a
    second call changes nothing. *)
Theorem InitializeGlobalLLVM_once (n : nat) (s : LLVMState) :
  Nat.iter (S n) InitializeGlobalLLVM LLVMState_initial
  = {| LLVM_IS_INITIALIZED := true;
       llvm_calls :=
         [LLVMInitializeNativeTarget; LLVMInitializeNativeAsmPrinter] |} ∧
  InitializeGlobalLLVM (InitializeGlobalLLVM s) = InitializeGlobalLLVM s ∧
  LLVM_IS_INITIALIZED (InitializeGlobalLLVM s) = true.
Proof.
  split_and!.
  - induction n as [| n IH]; [done |].
    change (Nat.iter (S (S n)) InitializeGlobalLLVM LLVMState_initial)
      with (InitializeGlobalLLVM
              (Nat.iter (S n) InitializeGlobalLLVM LLVMState_initial)).
    by rewrite IH.
  - unfold InitializeGlobalLLVM. by destruct (LLVM_IS_INITIALIZED s) eqn:E;
      simpl; rewrite ?E.
  - unfold InitializeGlobalLLVM. by destruct (LLVM_IS_INITIALIZED s) eqn:E.
Qed.

(** *** Run on the other outputs *)

(** X17.  The request session on a table handler: [Run] returns 0, and the
    caller's row is the first row of the table when it has one; it is
    left as it was when the table is empty or hands out no iterator.  The
    rows after the first are not looked at. *)
Theorem RequestRun_table h session (in_row out_row : Row) r table :
  session_runner h session = Some r ->
  RunWithCache r {| request := Some in_row; is_debug := is_debug_ session |}
  = Some (OfTable table) ->
  RequestRunSession_Run h session in_row out_row
  = Some (0, default out_row (head (rows_of table))).
Proof.
  unfold RequestRunSession_Run, rows_of. intros Hr Ho.
  rewrite Hr. simpl. rewrite Ho.
  destruct (GetIterator table) as [iter |]; simpl; [| done].
  rewrite push_back_all_app. simpl.
  unfold Valid, Iter_GetValue. simpl. by destruct (it_table iter).
Qed.

(** X18.  The runner returns no handler at all: the request session's [Run] and
    the batch session's vector-collecting [Run] return -1 with the
    caller's row and vector as they were, and the batch session's [Run()]
    returns a null handler. *)
Theorem Run_null_output h batch request r_batch r_request
    (in_row out_row : Row) rows limit :
  session_runner h batch = Some r_batch ->
  RunWithCache r_batch {| request := None; is_debug := is_debug_ batch |}
  = None ->
  session_runner h request = Some r_request ->
  RunWithCache r_request
    {| request := Some in_row; is_debug := is_debug_ request |}
  = None ->
  RequestRunSession_Run h request in_row out_row = Some (-1, out_row) ∧
  BatchRunSession_Run_rows h batch rows limit = Some (-1, rows) ∧
  BatchRunSession_Run h batch = Some None.
Proof.
  unfold BatchRunSession_Run, BatchRunSession_Run_rows,
    RequestRunSession_Run.
  intros Hb Hob Hq Hoq. rewrite Hb, Hq. simpl. by rewrite Hob, Hoq.
Qed.

(** X19.  The two entry points of the batch session agree.  When [Run()]
    returns a table, the vector-collecting [Run] returns 0 and appends
    exactly the rows that table's iterator yields; when [Run()] returns a
    null handler, the vector-collecting [Run] returns -1 and appends
    nothing; and one is undefined exactly when the other is. *)
Theorem BatchRun_entry_points_agree h session rows limit :
  match BatchRunSession_Run h session with
  | Some (Some table) =>
    BatchRunSession_Run_rows h session rows limit
    = Some (0, rows ++ rows_of table)
  | Some None =>
    BatchRunSession_Run_rows h session rows limit = Some (-1, rows)
  | None => BatchRunSession_Run_rows h session rows limit = None
  end.
Proof.
  unfold BatchRunSession_Run, BatchRunSession_Run_rows, rows_of.
  destruct (session_runner h session) as [r |]; simpl; [| done].
  destruct (RunWithCache r _) as [[table | row | p] |]; simpl; try done.
  destruct (GetIterator table) as [iter |]; simpl.
  - by rewrite !push_back_all_app.
  - by rewrite app_nil_r.
Qed.


(** X21.  A compile-only engine hands out sessions that cannot be run.  When
    the compilation succeeds and leaves the context without a runner
    tree, [Get] returns true and caches the artifact, and every [Run] of
    the session it has bound dereferences the missing runner. *)
Theorem compile_only_session_cannot_run sql db session status w ok ctx st
    (in_row out_row : Row) rows limit :
  GetCacheLocked db sql (IsBatchRun session) (engine w) = None ->
  is_compile_only (options_ (engine w)) = true ->
  Compile (Get_compiler (engine w))
    (fresh_context Row ColumnDef sql db (IsBatchRun session)) status
  = (ok, ctx, st) ->
  failed ok st = false ->
  runner ctx = None ->
  (Get sql db session status w).1.1.1 = true ∧
  is_Some (GetCacheLocked db sql (IsBatchRun session)
             (engine (Get sql db session status w).2)) ∧
  RequestRunSession_Run (heap (Get sql db session status w).2)
    (Get sql db session status w).1.1.2 in_row out_row = None ∧
  BatchRunSession_Run (heap (Get sql db session status w).2)
    (Get sql db session status w).1.1.2 = None ∧
  BatchRunSession_Run_rows (heap (Get sql db session status w).2)
    (Get sql db session status w).1.1.2 rows limit = None.
Proof.
  intros Hmiss Hco Hc Hf Hnull.
  unfold Get, Get_compile. rewrite Hmiss, Hc. simpl.
  rewrite Hf, Hco. simpl.
  set (info := fresh (dom (heap w))).
  set (w1 := store info _ _).
  assert (GetCacheLocked db sql (IsBatchRun session) (engine w1) = None)
    as Hmiss1 by done.
  destruct (Get_insert_absent _ _ _ info _ Hmiss1) as (Hs & Hh & Ht & Hk).
  destruct (Get_insert sql db session info w1) as [s2 w2]. simpl in *.
  subst s2. rewrite Hh, Hk.
  assert (session_runner (<[info := {| get_sql_context := ctx |}]> (heap w))
            (SetCompileInfo session info) = None)
    as Hrun.
  { unfold session_runner. simpl. rewrite lookup_insert_eq. simpl.
    exact Hnull. }
  unfold RequestRunSession_Run, BatchRunSession_Run,
    BatchRunSession_Run_rows. rewrite Hrun. split_and!; try done.
  rewrite decide_True by done. by eexists.
Qed.

End Further.

(** ** The further properties at work on the small instance *)

Lemma Get_miss_builds_and_caches_witness :
  (Get demo_Compile demo_BuildRunner demo_sql demo_db demo_batch
     demo_status demo_world).1
  = (true, SetCompileInfo demo_batch 1%positive,
     {| code := 0; msg := "ok" |}) ∧
  trace (Get demo_Compile demo_BuildRunner demo_sql demo_db demo_batch
           demo_status demo_world).2
  = [EvCompile demo_sql demo_db true; EvBuildRunner demo_sql demo_db true].
Proof.
  destruct (@Get_miss_builds_and_caches string string unit demo_Compile
              demo_BuildRunner demo_sql demo_db demo_batch demo_status
              demo_world demo_sql_compiled.1.1 demo_sql_compiled.1.2
              demo_sql_compiled.2 demo_sql_built.1.1 demo_sql_built.1.2
              demo_sql_built.2)
    as (Hret & _ & _ & _ & Htrace).
  - vm_compute. reflexivity.
  - reflexivity.
  - vm_compute. reflexivity.
  - vm_compute. reflexivity.
  - vm_compute. reflexivity.
  - vm_compute. reflexivity.
  - exact (conj Hret Htrace).
Defined.

Lemma Get_compile_only_witness :
  (Get demo_Compile demo_BuildRunner demo_sql demo_db demo_batch
     demo_status demo_compile_only).1.1.1 = true ∧
  trace (Get demo_Compile demo_BuildRunner demo_sql demo_db demo_batch
           demo_status demo_compile_only).2
  = [EvCompile demo_sql demo_db true].
Proof.
  destruct (@Get_compile_only string string unit demo_Compile
              demo_BuildRunner demo_sql demo_db demo_batch demo_status
              demo_compile_only demo_sql_compiled.1.1 demo_sql_compiled.1.2
              demo_sql_compiled.2)
    as (Hret & _ & Htrace & _).
  - vm_compute. reflexivity.
  - reflexivity.
  - vm_compute. reflexivity.
  - exact (conj Hret Htrace).
Defined.

Lemma Get_changes_only_its_key_witness :
  GetCacheLocked demo_db demo_sql true (engine demo_second.2)
  = Some 1%positive.
Proof.
  unfold demo_second.
  rewrite (@Get_changes_only_its_key string string unit demo_Compile
             demo_BuildRunner demo_sql demo_db demo_request demo_status
             demo_first.2 true demo_db demo_sql).
  - vm_compute. reflexivity.
  - discriminate.
Defined.

Lemma bound_session_undisturbed_witness :
  BatchRunSession_Run_rows (heap demo_third.2) demo_first.1.1.2 [] 0%N
  = Some (0, ["r1"; "r2"; "r3"]) ∧
  BatchRunSession_Run_rows (heap (ClearCache demo_db demo_first.2))
    demo_first.1.1.2 [] 0%N
  = Some (0, ["r1"; "r2"; "r3"]).
Proof.
  assert (BatchRunSession_Run_rows (heap demo_second.2) demo_first.1.1.2
            [] 0%N = Some (0, ["r1"; "r2"; "r3"])) as Hbefore.
  { vm_compute. reflexivity. }
  assert (BatchRunSession_Run_rows (heap demo_first.2) demo_first.1.1.2
            [] 0%N = Some (0, ["r1"; "r2"; "r3"])) as Hbefore'.
  { vm_compute. reflexivity. }
  split.
  - destruct (@bound_session_undisturbed string string unit demo_Compile
                demo_BuildRunner false demo_sql "db2" demo_batch
                demo_status demo_second.2 demo_first.1.1.2 1%positive
                true None None "in" "out" [] 0%N)
      with (w' := demo_third.2) as (_ & _ & Hrows).
    + reflexivity.
    + apply elem_of_dom. vm_compute. eexists. reflexivity.
    + left. reflexivity.
    + rewrite Hrows. exact Hbefore.
  - destruct (@bound_session_undisturbed string string unit demo_Compile
                demo_BuildRunner false demo_sql demo_db demo_batch
                demo_status demo_first.2 demo_first.1.1.2 1%positive
                true None None "in" "out" [] 0%N)
      with (w' := ClearCache demo_db demo_first.2) as (_ & _ & Hrows).
    + reflexivity.
    + apply elem_of_dom. vm_compute. eexists. reflexivity.
    + right. right. reflexivity.
    + rewrite Hrows. exact Hbefore'.
Defined.

Lemma Get_binds_live_artifact_witness :
  ∃ info compile_info,
    compile_info_ demo_second.1.1.2 = Some info ∧
    heap demo_second.2 !! info = Some compile_info.
Proof.
  destruct (@Get_binds_live_artifact string string unit demo_Compile
              demo_BuildRunner false tt demo_options demo_sql demo_db
              demo_request demo_status demo_first.2
              demo_second.1.1.2 demo_second.1.2 demo_second.2)
    as (info & compile_info & Hbound & Hlive & _).
  - apply Get_reachable. apply rtc_refl.
  - vm_compute. reflexivity.
  - exists info, compile_info. exact (conj Hbound Hlive).
Defined.

Lemma ClearCache_then_Get_recompiles_witness :
  ∃ info1 info2,
    compile_info_ demo_first.1.1.2 = Some info1 ∧
    compile_info_ demo_after_clear.1.1.2 = Some info2 ∧
    info1 ≠ info2 ∧
    session_runner (heap demo_after_clear.2) demo_first.1.1.2
    = session_runner (heap demo_first.2) demo_first.1.1.2.
Proof.
  destruct (@ClearCache_then_Get_recompiles string string unit demo_Compile
              demo_BuildRunner false tt demo_options demo_sql demo_db
              demo_batch demo_batch_debug demo_status demo_status
              demo_world demo_first.1.1.2 demo_first.1.2 demo_first.2
              demo_after_clear.1.1.2 demo_after_clear.1.2
              demo_after_clear.2)
    as (info1 & info2 & H1 & H2 & Hne & _ & _ & _ & Hrun).
  - apply rtc_refl.
  - reflexivity.
  - vm_compute. reflexivity.
  - vm_compute. reflexivity.
  - exists info1, info2. exact (conj H1 (conj H2 (conj Hne Hrun))).
Defined.

Lemma first_insert_wins_witness :
  compile_info_
    (Get_insert demo_sql demo_db demo_batch_debug 1%positive
       (Get_insert demo_sql demo_db demo_batch 2%positive
          demo_both_compiled).2).1
  = Some 2%positive ∧
  heap (Get_insert demo_sql demo_db demo_batch_debug 1%positive
          (Get_insert demo_sql demo_db demo_batch 2%positive
             demo_both_compiled).2).2
  = delete 1%positive (heap demo_both_compiled).
Proof.
  destruct (@first_insert_wins string string unit demo_sql demo_db
              demo_batch demo_batch_debug 2%positive 1%positive
              demo_both_compiled)
    as (_ & Hbound & _ & Hheap & _).
  - vm_compute. reflexivity.
  - reflexivity.
  - discriminate.
  - exact (conj Hbound Hheap).
Defined.

Lemma reachable_config_fixed_witness :
  cl_ (engine demo_second.2) = tt ∧
  options_ (engine demo_second.2) = demo_options.
Proof.
  apply (@reachable_config_fixed string string unit demo_Compile
           demo_BuildRunner false tt demo_options demo_second.2).
  apply Get_reachable. apply Get_reachable. apply rtc_refl.
Defined.

Lemma reachable_caches_wellformed_witness :
  is_Some (heap demo_second.2 !! 1%positive) ∧
  is_Some (heap demo_second.2 !! 2%positive) ∧
  (1%positive = 2%positive ->
   true = false ∧ demo_db = demo_db ∧ demo_sql = demo_sql).
Proof.
  apply (@reachable_caches_wellformed string string unit demo_Compile
           demo_BuildRunner false tt demo_options demo_second.2
           true demo_db demo_sql false demo_db demo_sql
           1%positive 2%positive).
  - apply Get_reachable. apply Get_reachable. apply rtc_refl.
  - vm_compute. reflexivity.
  - vm_compute. reflexivity.
Defined.

Lemma Explain_null_argument_witness :
  Explain demo_Compile false demo_sql demo_db true None (Some demo_status)
    demo_first.2
  = (false, None, Some demo_status, demo_first.2).
Proof.
  apply (@Explain_null_argument string string unit demo_Compile false
           demo_sql demo_db true None (Some demo_status) demo_first.2).
  left. reflexivity.
Defined.

Lemma Explain_result_witness :
  (Explain demo_Compile false demo_sql demo_db true
     (Some demo_explain_output) (Some demo_status) demo_world).1
  = (true,
     Some {| input_schema := ["c1"]; output_schema := ["c1"];
             eo_logical_plan := "project"; eo_physical_plan := "scan";
             eo_ir := EmptyString |},
     Some {| code := 0; msg := "ok" |}).
Proof.
  destruct (@Explain_result string string unit demo_Compile false
              demo_sql demo_db true demo_explain_output demo_status
              demo_world demo_sql_explained.1.1 demo_sql_explained.1.2
              demo_sql_explained.2)
    as [Hret _].
  - vm_compute. reflexivity.
  - exact Hret.
Defined.

Lemma RequestRun_table_witness :
  RequestRunSession_Run (demo_store (Some (OfTable demo_table)))
    (demo_bound demo_request) "in" "out"
  = Some (0, "r1").
Proof.
  apply (@RequestRun_table string string
           (demo_store (Some (OfTable demo_table)))
           (demo_bound demo_request) "in" "out"
           (demo_const_runner (Some (OfTable demo_table))) demo_table).
  - vm_compute. reflexivity.
  - reflexivity.
Defined.

Lemma Run_null_output_witness :
  RequestRunSession_Run (demo_store None) (demo_bound demo_request)
    "in" "out"
  = Some (-1, "out") ∧
  BatchRunSession_Run_rows (demo_store None) (demo_bound demo_batch)
    ["x"] 5%N
  = Some (-1, ["x"]) ∧
  BatchRunSession_Run (demo_store None) (demo_bound demo_batch)
  = Some None.
Proof.
  apply (@Run_null_output string string (demo_store None)
           (demo_bound demo_batch) (demo_bound demo_request)
           (demo_const_runner None) (demo_const_runner None)
           "in" "out" ["x"] 5%N).
  - vm_compute. reflexivity.
  - reflexivity.
  - vm_compute. reflexivity.
  - reflexivity.
Defined.

Lemma compile_only_session_cannot_run_witness :
  (Get demo_Compile demo_BuildRunner demo_sql demo_db demo_batch
     demo_status demo_compile_only).1.1.1 = true ∧
  BatchRunSession_Run
    (heap (Get demo_Compile demo_BuildRunner demo_sql demo_db demo_batch
             demo_status demo_compile_only).2)
    (Get demo_Compile demo_BuildRunner demo_sql demo_db demo_batch
       demo_status demo_compile_only).1.1.2
  = None.
Proof.
  destruct (@compile_only_session_cannot_run string string unit
              demo_Compile demo_BuildRunner demo_sql demo_db demo_batch
              demo_status demo_compile_only demo_sql_compiled.1.1
              demo_sql_compiled.1.2 demo_sql_compiled.2
              "in" "out" [] 0%N)
    as (Hret & _ & _ & Hrun & _).
  - vm_compute. reflexivity.
  - reflexivity.
  - vm_compute. reflexivity.
  - vm_compute. reflexivity.
  - vm_compute. reflexivity.
  - exact (conj Hret Hrun).
Defined.
